(** * EcsTask: an ECS task as the target of an events rule

    A shallow embedding of
    [packages/@aws-cdk/aws-events-targets/lib/ecs-task.ts]: the
    constructor of [EcsTask] (validation of the two security-group
    properties and resolution of the security groups, with its effects on
    the construct tree of the task definition) and [bind] (policy
    statements, input payload and ECS parameters of the rule target).

    The collaborators the file imports ([@aws-cdk/aws-ec2], [aws-ecs],
    [aws-iam], [aws-events], [./util], [./ecs-task-properties]) are kept
    as interfaces: a record per interface with the members the file reads. *)

From stdpp Require Import base option list strings gmap.
From Stdlib Require Import ZArith Lia.

Local Open Scope Z_scope.
Local Open Scope string_scope.
Local Open Scope list_scope.

(** ** Values of the host language *)

(** A JSON-like value, for the fields of a container override that the
    file never inspects. A [number] is kept as an integer: the file copies
    the numbers it receives and computes with none of them. *)
#[warnings="-register-all"]
Inductive JsVal : Type :=
  | JUndefined
  | JNumber (z : Z)
  | JString (s : string)
  | JArray (items : list JsVal)
  | JObject (fields : list (string * JsVal)).

(** An object literal used as a bag of named properties. *)
Abbreviation JsObject := (gmap string JsVal).

(** [o.k]: reading a property that the object does not own gives
    [undefined]. *)
Definition js_get (o : JsObject) (k : string) : JsVal :=
  default JUndefined (o !! k).

(** [const { k, ...rest } = o]: the rest pattern collects every own
    property but [k]. *)
Definition js_rest (k : string) (o : JsObject) : JsObject := delete k o.

(** [{ k: v, ...rest }]: the spread comes second, so a property of [rest]
    with the same key replaces [k: v]. *)
Definition js_literal_spread (k : string) (v : JsVal) (rest : JsObject) : JsObject :=
  rest ∪ {[ k := v ]}.

(** ** Exceptions and the construct tree *)

Inductive Result (A : Type) : Type :=
  | Ok (a : A)
  | Throw (msg : string).
Arguments Ok {A} a.
Arguments Throw {A} msg.

(** ** Collaborator interfaces *)

Module ec2.
(** Modelled from the spec: the enum [SubnetType] of [@aws-cdk/aws-ec2],
    which is declared in another package. *)
Inductive SubnetType : Type := ISOLATED | PRIVATE | PUBLIC.

#[global] Instance SubnetType_eq_dec : EqDecision SubnetType.
Proof. solve_decision. Defined.

Record SubnetSelection : Type := {
  subnetType : option SubnetType;
  subnetGroupName : option string;
  onePerAz : option bool;
}.

Record SelectedSubnets : Type := { subnetIds : list string }.

Record ISecurityGroup : Type := { securityGroupId : string }.

#[global] Instance ISecurityGroup_eq_dec : EqDecision ISecurityGroup.
Proof. solve_decision. Defined.

Record IVpc : Type := {
  vpcId : string;
  selectSubnets : SubnetSelection → SelectedSubnets;
}.
End ec2.

Module iam.
Record IRole : Type := { roleArn : string }.

(** The properties a [PolicyStatement] is built from; [conditions] maps
    an operator to the condition keys and their values. *)
Record PolicyStatement : Type := {
  actions : list string;
  resources : list string;
  conditions : option (list (string * list (string * string)));
}.

#[global] Instance PolicyStatement_eq_dec : EqDecision PolicyStatement.
Proof. solve_decision. Defined.
End iam.

Module ecs.
(** Modelled from the spec: the enum [NetworkMode] of [@aws-cdk/aws-ecs],
    which is declared in another package. *)
Inductive NetworkMode : Type := NONE | BRIDGE | AWS_VPC | HOST.

#[global] Instance NetworkMode_eq_dec : EqDecision NetworkMode.
Proof. solve_decision. Defined.

Record ICluster : Type := {
  clusterArn : string;
  vpc : ec2.IVpc;
}.

(** A task definition: the attributes [ecs-task.ts] reads, and the path
    of its node in the construct tree, which identifies the object. *)
Record TaskDefinition : Type := {
  path : string;
  taskDefinitionArn : string;
  networkMode : NetworkMode;
  isEc2Compatible : bool;
  isFargateCompatible : bool;
  executionRole : option iam.IRole;
  taskRole : iam.IRole;
}.
End ecs.

(** The node of a construct: its children by id and the warnings recorded
    on it, in the order they were added. A child is seen through the type
    the source casts it to, [ec2.ISecurityGroup]. *)
Module ConstructNode.
Record t : Type := {
  children : gmap string ec2.ISecurityGroup;
  warnings : list string;
}.

Definition empty : t := {| children := ∅; warnings := [] |}.
End ConstructNode.

(** The construct tree: the node of every construct, by path. The task
    definition handed to [EcsTask] is a reference into it, so that what one
    constructor call does to the node is seen by the next. *)
Abbreviation Constructs := (gmap string ConstructNode.t).

Definition node (σ : Constructs) (c : ecs.TaskDefinition) : ConstructNode.t :=
  default ConstructNode.empty (σ !! ecs.path c).

(** Computations over the construct tree that may throw. A [Throw] keeps
    the tree as it was when the exception was raised. *)
Definition M (A : Type) : Type := Constructs → Result A * Constructs.

Definition ret {A} (a : A) : M A := fun σ => (Ok a, σ).

Definition throw {A} (msg : string) : M A := fun σ => (Throw msg, σ).

Definition mbind {A B} (m : M A) (k : A → M B) : M B :=
  fun σ => match m σ with
           | (Ok a, σ') => k a σ'
           | (Throw msg, σ') => (Throw msg, σ')
           end.

Declare Scope cdk_scope.
Delimit Scope cdk_scope with cdk.
Notation "'let!' x ':=' m 'in' k" := (mbind m (fun x => k))
  (at level 10, x name, m at level 100, k at level 200) : cdk_scope.
Notation "'run!' m 'in' k" := (mbind m (fun _ => k))
  (at level 10, m at level 100, k at level 200) : cdk_scope.

(** [scope.node.addWarning(message)] *)
Definition addWarning (scope : ecs.TaskDefinition) (message : string) : M unit :=
  fun σ =>
    let n := node σ scope in
    (Ok (),
     <[ ecs.path scope :=
          {| ConstructNode.children := ConstructNode.children n;
             ConstructNode.warnings := ConstructNode.warnings n ++ [message] |} ]> σ).

(** [scope.node.tryFindChild(id) as ec2.ISecurityGroup] *)
Definition tryFindChild (scope : ecs.TaskDefinition) (id : string)
  : M (option ec2.ISecurityGroup) :=
  fun σ => (Ok (ConstructNode.children (node σ scope) !! id), σ).

(** Modelled from the spec: [new ec2.SecurityGroup(scope, id, { vpc })] of
    [@aws-cdk/aws-ec2], a class of another package. The new group is
    a child [id] of [scope]; its identifier is the attribute of the
    resource at that place of the tree, in the network [vpc]. *)
Definition SecurityGroup_new (scope : ecs.TaskDefinition) (id : string) (vpc : ec2.IVpc)
  : M ec2.ISecurityGroup :=
  fun σ =>
    let n := node σ scope in
    let g := {| ec2.securityGroupId :=
                  ecs.path scope +:+ "/" +:+ id +:+ ".GroupId@" +:+ ec2.vpcId vpc |} in
    (Ok g,
     <[ ecs.path scope :=
          {| ConstructNode.children := <[ id := g ]> (ConstructNode.children n);
             ConstructNode.warnings := ConstructNode.warnings n |} ]> σ).

(** ** Properties and fields of [EcsTask] *)

(** [ContainerOverride] of [./ecs-task-properties]: an object with the
    property [containerName] and the override settings. *)
Abbreviation ContainerOverride := JsObject.

Module EcsTaskProps.
Record t : Type := {
  cluster : ecs.ICluster;
  taskDefinition : ecs.TaskDefinition;
  taskCount : option Z;
  containerOverrides : option (list ContainerOverride);
  subnetSelection : option ec2.SubnetSelection;
  securityGroup : option ec2.ISecurityGroup;
  securityGroups : option (list ec2.ISecurityGroup);
}.
End EcsTaskProps.

Module EcsTask.
Record t : Type := {
  securityGroup : option ec2.ISecurityGroup;
  securityGroups : option (list ec2.ISecurityGroup);
  cluster : ecs.ICluster;
  taskDefinition : ecs.TaskDefinition;
  taskCount : Z;
  props : EcsTaskProps.t;
}.
End EcsTask.

(** [x !== undefined] *)
Definition defined {A} (x : option A) : bool :=
  match x with Some _ => true | None => false end.

(** ** The constructor *)

(** The object under construction after [cluster], [taskDefinition] and
    [taskCount] are assigned (lines 95 to 97); the two security-group
    fields are assigned by the branch that follows. *)
Definition assigned (props : EcsTaskProps.t)
    (securityGroup : option ec2.ISecurityGroup)
    (securityGroups : option (list ec2.ISecurityGroup)) : EcsTask.t :=
  {| EcsTask.securityGroup := securityGroup;
     EcsTask.securityGroups := securityGroups;
     EcsTask.cluster := EcsTaskProps.cluster props;
     EcsTask.taskDefinition := EcsTaskProps.taskDefinition props;
     EcsTask.taskCount :=
       match EcsTaskProps.taskCount props with
       | Some n => n
       | None => 1
       end;
     EcsTask.props := props |}.

Definition both_message : string :=
  "Only one of SecurityGroup or SecurityGroups can be populated.".

Definition ignored_message : string :=
  "security groups are ignored when network mode is not awsvpc".

(** [new EcsTask(props)]. Each [return] of the source ends its branch
    here; an object and an array are truthy, so [props.securityGroups] in
    a condition and [props.securityGroup || ...] test for presence. *)
Definition constructor (props : EcsTaskProps.t) : M EcsTask.t :=
  (if defined (EcsTaskProps.securityGroup props)
      && defined (EcsTaskProps.securityGroups props)
   then throw both_message
   else
     let taskDefinition := EcsTaskProps.taskDefinition props in
     if negb (bool_decide (ecs.networkMode taskDefinition = ecs.AWS_VPC))
     then
       run! (if defined (EcsTaskProps.securityGroup props)
                || defined (EcsTaskProps.securityGroups props)
             then addWarning taskDefinition ignored_message
             else ret ()) in
       ret (assigned props None None)
     else
       match EcsTaskProps.securityGroups props with
       | Some groups => ret (assigned props None (Some groups))
       | None =>
           let! found := match EcsTaskProps.securityGroup props with
                         | Some g => ret (Some g)
                         | None => tryFindChild taskDefinition "SecurityGroup"
                         end in
           let! securityGroup := match found with
                                 | Some g => ret g
                                 | None =>
                                     SecurityGroup_new taskDefinition "SecurityGroup"
                                       (ecs.vpc (EcsTaskProps.cluster props))
                                 end in
           ret (assigned props (Some securityGroup) (Some [securityGroup]))
       end)%cdk.

(** ** The rule target configuration *)

Module events.
Record IRule : Type := { ruleArn : string }.

Record AwsVpcConfigurationProperty : Type := {
  subnets : list string;
  assignPublicIp : string;
  securityGroups : option (list string);
}.

Record NetworkConfigurationProperty : Type := {
  awsVpcConfiguration : AwsVpcConfigurationProperty;
}.

(** [CfnRule.EcsParametersProperty]; a property the object literal does
    not have is [None]. *)
Record EcsParametersProperty : Type := {
  taskCount : Z;
  taskDefinitionArn : string;
  launchType : option string;
  networkConfiguration : option NetworkConfigurationProperty;
}.

(** The object given to [RuleTargetInput.fromObject]. *)
Record TaskInput : Type := {
  containerOverrides : option (list JsObject);
}.

Inductive RuleTargetInput : Type :=
  | fromObject (obj : TaskInput).

Record RuleTargetConfig : Type := {
  id : string;
  arn : string;
  role : iam.IRole;
  ecsParameters : EcsParametersProperty;
  input : RuleTargetInput;
  targetResource : ecs.TaskDefinition;
}.
End events.

(** ** [bind] *)

(** The statement [bind] starts the policy with. *)
Definition runTaskStatement (this : EcsTask.t) : iam.PolicyStatement :=
  {| iam.actions := ["ecs:RunTask"];
     iam.resources := [ecs.taskDefinitionArn (EcsTask.taskDefinition this)];
     iam.conditions :=
       Some [("ArnEquals", [("ecs:cluster", ecs.clusterArn (EcsTask.cluster this))])] |}.

(** The statement pushed for a role that has to be passed. *)
Definition passRoleStatement (r : iam.IRole) : iam.PolicyStatement :=
  {| iam.actions := ["iam:PassRole"];
     iam.resources := [iam.roleArn r];
     iam.conditions := None |}.

(** [policyStatements] when [bind] hands it to [singletonEventRole]
    (lines 120 to 143); [push] appends at the end. *)
Definition policyStatements (this : EcsTask.t) : list iam.PolicyStatement :=
  let taskDefinition := EcsTask.taskDefinition this in
  let policyStatements := [runTaskStatement this] in
  let policyStatements :=
    match ecs.executionRole taskDefinition with
    | Some executionRole => policyStatements ++ [passRoleStatement executionRole]
    | None => policyStatements
    end in
  let policyStatements :=
    if ecs.isFargateCompatible taskDefinition
    then policyStatements ++ [passRoleStatement (ecs.taskRole taskDefinition)]
    else policyStatements in
  policyStatements.

(** [({ containerName, ...overrides }) => ({ name: containerName, ...overrides })] *)
Definition renameContainerName (o : ContainerOverride) : JsObject :=
  let containerName := js_get o "containerName" in
  let overrides := js_rest "containerName" o in
  js_literal_spread "name" containerName overrides.

(** [this.props.containerOverrides && this.props.containerOverrides.map(...)] *)
Definition containerOverrides (this : EcsTask.t) : option (list JsObject) :=
  match EcsTaskProps.containerOverrides (EcsTask.props this) with
  | Some overrides => Some (map renameContainerName overrides)
  | None => None
  end.

(** [this.props.subnetSelection || { subnetType: ec2.SubnetType.PRIVATE }] *)
Definition subnetSelection (this : EcsTask.t) : ec2.SubnetSelection :=
  match EcsTaskProps.subnetSelection (EcsTask.props this) with
  | Some selection => selection
  | None => {| ec2.subnetType := Some ec2.PRIVATE;
               ec2.subnetGroupName := None;
               ec2.onePerAz := None |}
  end.

Definition assignPublicIp (this : EcsTask.t) : string :=
  if bool_decide (ec2.subnetType (subnetSelection this) = Some ec2.PUBLIC)
  then "ENABLED"
  else "DISABLED".

Definition ecsParameters (this : EcsTask.t) : events.EcsParametersProperty :=
  let taskCount := EcsTask.taskCount this in
  let taskDefinitionArn := ecs.taskDefinitionArn (EcsTask.taskDefinition this) in
  if bool_decide (ecs.networkMode (EcsTask.taskDefinition this) = ecs.AWS_VPC)
  then
    {| events.taskCount := taskCount;
       events.taskDefinitionArn := taskDefinitionArn;
       events.launchType :=
         Some (if ecs.isEc2Compatible (EcsTask.taskDefinition this)
               then "EC2" else "FARGATE");
       events.networkConfiguration :=
         Some {| events.awsVpcConfiguration :=
           {| events.subnets :=
                ec2.subnetIds
                  (ec2.selectSubnets
                     (ecs.vpc (EcsTaskProps.cluster (EcsTask.props this)))
                     (subnetSelection this));
              events.assignPublicIp := assignPublicIp this;
              events.securityGroups :=
                match EcsTask.securityGroups this with
                | Some groups => Some (map ec2.securityGroupId groups)
                | None => None
                end |} |} |}
  else
    {| events.taskCount := taskCount;
       events.taskDefinitionArn := taskDefinitionArn;
       events.launchType := None;
       events.networkConfiguration := None |}.

Section Bind.
(** [singletonEventRole] of [./util] is taken as given: the role of the
    rule target for a scope and the statements of its policy. *)
Variable singletonEventRole :
  ecs.TaskDefinition → list iam.PolicyStatement → iam.IRole.

Definition bind (this : EcsTask.t) (_rule : events.IRule) (_id : option string)
  : events.RuleTargetConfig :=
  let arn := ecs.clusterArn (EcsTask.cluster this) in
  let role := singletonEventRole (EcsTask.taskDefinition this) (policyStatements this) in
  let input := {| events.containerOverrides := containerOverrides this |} in
  {| events.id := "";
     events.arn := arn;
     events.role := role;
     events.ecsParameters := ecsParameters this;
     events.input := events.fromObject input;
     events.targetResource := EcsTask.taskDefinition this |}.
End Bind.

(** The payload inside a rule target input. *)
Definition payload (i : events.RuleTargetInput) : events.TaskInput :=
  match i with events.fromObject obj => obj end.

(** Modelled from the spec: the interface [ContainerOverride] of
    [./ecs-task-properties], declared in another file: the container
    name and the override fields (command, environment, resource limits). *)
Definition ContainerOverride_properties : list string :=
  ["containerName"; "command"; "environment"; "cpu"; "memoryLimit";
   "memoryReservation"].

(** An object of type [ContainerOverride]: it has a [containerName] and
    only declared properties. *)
Definition is_ContainerOverride (o : JsObject) : Prop :=
  "containerName" ∈ dom o
  ∧ dom o ⊆ (list_to_set ContainerOverride_properties : gset string).

#[global] Instance is_ContainerOverride_dec (o : JsObject) : Decision (is_ContainerOverride o).
Proof. unfold is_ContainerOverride. apply _. Defined.

(** ** Sample collaborators

    Concrete objects on which the statements below are exercised. *)

Definition sample_vpc : ec2.IVpc :=
  {| ec2.vpcId := "vpc-0a1b";
     ec2.selectSubnets := fun selection =>
       {| ec2.subnetIds :=
            match ec2.subnetType selection with
            | Some ec2.PUBLIC => ["subnet-public-1"]
            | Some ec2.ISOLATED => ["subnet-isolated-1"]
            | _ => ["subnet-private-1"; "subnet-private-2"]
            end |} |}.

Definition sample_cluster : ecs.ICluster :=
  {| ecs.clusterArn := "arn:aws:ecs:eu-west-1:111122223333:cluster/batch";
     ecs.vpc := sample_vpc |}.

Definition sample_role : iam.IRole :=
  {| iam.roleArn := "arn:aws:iam::111122223333:role/task" |}.

Definition sample_execution_role : iam.IRole :=
  {| iam.roleArn := "arn:aws:iam::111122223333:role/execution" |}.

Definition sample_taskDefinition (mode : ecs.NetworkMode) (ec2Compatible fargate : bool)
    (executionRole : option iam.IRole) : ecs.TaskDefinition :=
  {| ecs.path := "Stack/TaskDef";
     ecs.taskDefinitionArn := "arn:aws:ecs:eu-west-1:111122223333:task-definition/job:1";
     ecs.networkMode := mode;
     ecs.isEc2Compatible := ec2Compatible;
     ecs.isFargateCompatible := fargate;
     ecs.executionRole := executionRole;
     ecs.taskRole := sample_role |}.

Definition sample_group (name : string) : ec2.ISecurityGroup :=
  {| ec2.securityGroupId := name |}.

Definition sample_props (taskDefinition : ecs.TaskDefinition) : EcsTaskProps.t :=
  {| EcsTaskProps.cluster := sample_cluster;
     EcsTaskProps.taskDefinition := taskDefinition;
     EcsTaskProps.taskCount := None;
     EcsTaskProps.containerOverrides := None;
     EcsTaskProps.subnetSelection := None;
     EcsTaskProps.securityGroup := None;
     EcsTaskProps.securityGroups := None |}.

Definition with_groups (props : EcsTaskProps.t)
    (securityGroup : option ec2.ISecurityGroup)
    (securityGroups : option (list ec2.ISecurityGroup)) : EcsTaskProps.t :=
  {| EcsTaskProps.cluster := EcsTaskProps.cluster props;
     EcsTaskProps.taskDefinition := EcsTaskProps.taskDefinition props;
     EcsTaskProps.taskCount := EcsTaskProps.taskCount props;
     EcsTaskProps.containerOverrides := EcsTaskProps.containerOverrides props;
     EcsTaskProps.subnetSelection := EcsTaskProps.subnetSelection props;
     EcsTaskProps.securityGroup := securityGroup;
     EcsTaskProps.securityGroups := securityGroups |}.

Definition with_taskCount (props : EcsTaskProps.t) (taskCount : option Z) : EcsTaskProps.t :=
  {| EcsTaskProps.cluster := EcsTaskProps.cluster props;
     EcsTaskProps.taskDefinition := EcsTaskProps.taskDefinition props;
     EcsTaskProps.taskCount := taskCount;
     EcsTaskProps.containerOverrides := EcsTaskProps.containerOverrides props;
     EcsTaskProps.subnetSelection := EcsTaskProps.subnetSelection props;
     EcsTaskProps.securityGroup := EcsTaskProps.securityGroup props;
     EcsTaskProps.securityGroups := EcsTaskProps.securityGroups props |}.

Definition sample_singletonEventRole
    (scope : ecs.TaskDefinition) (_ : list iam.PolicyStatement) : iam.IRole :=
  {| iam.roleArn := ecs.path scope +:+ "/EventsRole" |}.

Definition sample_rule : events.IRule :=
  {| events.ruleArn := "arn:aws:events:eu-west-1:111122223333:rule/nightly" |}.

(** The tree after [addWarning] and after [new SecurityGroup], as the
    constructor leaves it. *)
Definition warned (σ : Constructs) (c : ecs.TaskDefinition) : Constructs :=
  snd (addWarning c ignored_message σ).

Definition created_group (props : EcsTaskProps.t) (σ : Constructs) : ec2.ISecurityGroup * Constructs :=
  match SecurityGroup_new (EcsTaskProps.taskDefinition props) "SecurityGroup"
          (ecs.vpc (EcsTaskProps.cluster props)) σ with
  | (Ok g, σ') => (g, σ')
  | (Throw _, σ') => (sample_group "", σ')
  end.

(** Inputs for the two security-group properties. *)
Definition props_both (mode : ecs.NetworkMode) : EcsTaskProps.t :=
  with_groups (sample_props (sample_taskDefinition mode true false None))
    (Some (sample_group "sg-1")) (Some [sample_group "sg-2"]).

Definition props_list (mode : ecs.NetworkMode) : EcsTaskProps.t :=
  with_groups (sample_props (sample_taskDefinition mode true false None))
    None (Some [sample_group "sg-2"]).

Definition props_legacy (mode : ecs.NetworkMode) : EcsTaskProps.t :=
  with_groups (sample_props (sample_taskDefinition mode true false None))
    (Some (sample_group "sg-1")) None.

Definition props_plain (mode : ecs.NetworkMode) : EcsTaskProps.t :=
  sample_props (sample_taskDefinition mode true true (Some sample_execution_role)).

Definition props_zero_count : EcsTaskProps.t :=
  with_taskCount (props_plain ecs.BRIDGE) (Some 0).

Definition props_three : EcsTaskProps.t :=
  with_taskCount (props_list ecs.AWS_VPC) (Some 3).

(** Two container overrides, and a task target that carries them. *)
Definition override_web : ContainerOverride :=
  {[ "containerName" := JString "web";
     "command" := JArray [JString "serve"; JString "--port"; JString "80"];
     "cpu" := JNumber 256 ]}.

Definition override_worker : ContainerOverride :=
  {[ "containerName" := JString "worker";
     "environment" :=
       JArray [JObject [("name", JString "QUEUE"); ("value", JString "jobs")]];
     "memoryLimit" := JNumber 512 ]}.

Definition props_overrides : EcsTaskProps.t :=
  {| EcsTaskProps.cluster := sample_cluster;
     EcsTaskProps.taskDefinition :=
       sample_taskDefinition ecs.AWS_VPC false true None;
     EcsTaskProps.taskCount := None;
     EcsTaskProps.containerOverrides := Some [override_web; override_worker];
     EcsTaskProps.subnetSelection :=
       Some {| ec2.subnetType := Some ec2.PUBLIC;
               ec2.subnetGroupName := None;
               ec2.onePerAz := None |};
     EcsTaskProps.securityGroup := None;
     EcsTaskProps.securityGroups := Some [sample_group "sg-2"] |}.

(** A task definition for EC2 only whose execution role is its task
    role. *)
Definition props_shared_role : EcsTaskProps.t :=
  sample_props (sample_taskDefinition ecs.BRIDGE true false (Some sample_role)).

(** The ways a constructor call can end, each with the result and the
    tree it leaves: one constructor per [throw] or [return] of the source,
    the non-awsvpc [return] split by whether a warning was added and the
    last one by whether the child was found or created. *)
Inductive Outcome (props : EcsTaskProps.t) (σ : Constructs)
  : Result EcsTask.t * Constructs → Prop :=
  | rejected g l :
      EcsTaskProps.securityGroup props = Some g →
      EcsTaskProps.securityGroups props = Some l →
      Outcome props σ (Throw both_message, σ)
  | not_applicable :
      ecs.networkMode (EcsTaskProps.taskDefinition props) ≠ ecs.AWS_VPC →
      EcsTaskProps.securityGroup props = None →
      EcsTaskProps.securityGroups props = None →
      Outcome props σ (Ok (assigned props None None), σ)
  | ignored_legacy g :
      ecs.networkMode (EcsTaskProps.taskDefinition props) ≠ ecs.AWS_VPC →
      EcsTaskProps.securityGroup props = Some g →
      EcsTaskProps.securityGroups props = None →
      Outcome props σ
        (Ok (assigned props None None), warned σ (EcsTaskProps.taskDefinition props))
  | ignored_list l :
      ecs.networkMode (EcsTaskProps.taskDefinition props) ≠ ecs.AWS_VPC →
      EcsTaskProps.securityGroup props = None →
      EcsTaskProps.securityGroups props = Some l →
      Outcome props σ
        (Ok (assigned props None None), warned σ (EcsTaskProps.taskDefinition props))
  | explicit_list l :
      ecs.networkMode (EcsTaskProps.taskDefinition props) = ecs.AWS_VPC →
      EcsTaskProps.securityGroup props = None →
      EcsTaskProps.securityGroups props = Some l →
      Outcome props σ (Ok (assigned props None (Some l)), σ)
  | legacy_group g :
      ecs.networkMode (EcsTaskProps.taskDefinition props) = ecs.AWS_VPC →
      EcsTaskProps.securityGroup props = Some g →
      EcsTaskProps.securityGroups props = None →
      Outcome props σ (Ok (assigned props (Some g) (Some [g])), σ)
  | found_child c :
      ecs.networkMode (EcsTaskProps.taskDefinition props) = ecs.AWS_VPC →
      EcsTaskProps.securityGroup props = None →
      EcsTaskProps.securityGroups props = None →
      ConstructNode.children (node σ (EcsTaskProps.taskDefinition props))
        !! "SecurityGroup" = Some c →
      Outcome props σ (Ok (assigned props (Some c) (Some [c])), σ)
  | created_child :
      ecs.networkMode (EcsTaskProps.taskDefinition props) = ecs.AWS_VPC →
      EcsTaskProps.securityGroup props = None →
      EcsTaskProps.securityGroups props = None →
      ConstructNode.children (node σ (EcsTaskProps.taskDefinition props))
        !! "SecurityGroup" = None →
      Outcome props σ
        (Ok (assigned props (Some (created_group props σ).1)
                            (Some [(created_group props σ).1])),
         (created_group props σ).2).

(** A tree in which the sample task definition already has a child
    "SecurityGroup", another child and a warning, beside another node. *)
Definition tree_with_child : Constructs :=
  {[ "Stack/TaskDef" :=
       {| ConstructNode.children :=
            {[ "SecurityGroup" := sample_group "sg-old";
               "EventsRole" := sample_group "" ]};
          ConstructNode.warnings := ["an earlier warning"] |};
     "Stack/Other" :=
       {| ConstructNode.children := {[ "SecurityGroup" := sample_group "sg-other" ]};
          ConstructNode.warnings := [] |} ]}.

Definition props_empty_list : EcsTaskProps.t :=
  with_groups (sample_props (sample_taskDefinition ecs.AWS_VPC true false None))
    None (Some []).

(** Objects that are not container overrides: one with a property [name]
    of its own, one without [containerName]. *)
Definition override_named : JsObject :=
  {[ "containerName" := JString "web"; "name" := JString "sidecar";
     "cpu" := JNumber 128 ]}.

Definition override_unnamed : JsObject :=
  {[ "command" := JArray [JString "run"] ]}.

(** * Properties of the constructor *)

Lemma defined_is_Some {A} (x : option A) : defined x = true ↔ is_Some x.
Proof.
  destruct x as [a|]; simpl; split; intros H; eauto.
  - discriminate.
  - destruct H as [? ?]; discriminate.
Qed.

Lemma defined_None {A} (x : option A) : defined x = false ↔ x = None.
Proof. destruct x; simpl; split; congruence. Qed.

(** The constructor, branch by branch. *)

Lemma constructor_both props σ :
  is_Some (EcsTaskProps.securityGroup props) →
  is_Some (EcsTaskProps.securityGroups props) →
  constructor props σ = (Throw both_message, σ).
Proof.
  intros [g Hg] [l Hl]. unfold constructor. rewrite Hg, Hl. reflexivity.
Qed.

Lemma constructor_not_awsvpc props σ :
  ecs.networkMode (EcsTaskProps.taskDefinition props) ≠ ecs.AWS_VPC →
  ¬ (is_Some (EcsTaskProps.securityGroup props)
     ∧ is_Some (EcsTaskProps.securityGroups props)) →
  constructor props σ =
    (Ok (assigned props None None),
     if defined (EcsTaskProps.securityGroup props)
        || defined (EcsTaskProps.securityGroups props)
     then warned σ (EcsTaskProps.taskDefinition props)
     else σ).
Proof.
  intros Hmode Hone. unfold constructor, warned.
  destruct (EcsTaskProps.securityGroup props) as [g|] eqn:Hg;
    destruct (EcsTaskProps.securityGroups props) as [l|] eqn:Hl; simpl.
  - exfalso. apply Hone. split; eauto.
  - rewrite bool_decide_eq_false_2 by assumption. reflexivity.
  - rewrite bool_decide_eq_false_2 by assumption. reflexivity.
  - rewrite bool_decide_eq_false_2 by assumption. reflexivity.
Qed.

Lemma constructor_explicit_list props σ groups :
  ecs.networkMode (EcsTaskProps.taskDefinition props) = ecs.AWS_VPC →
  EcsTaskProps.securityGroup props = None →
  EcsTaskProps.securityGroups props = Some groups →
  constructor props σ = (Ok (assigned props None (Some groups)), σ).
Proof.
  intros Hmode Hg Hl. unfold constructor. rewrite Hg, Hl. simpl.
  rewrite bool_decide_eq_true_2 by assumption. reflexivity.
Qed.

Lemma constructor_legacy props σ g :
  ecs.networkMode (EcsTaskProps.taskDefinition props) = ecs.AWS_VPC →
  EcsTaskProps.securityGroup props = Some g →
  EcsTaskProps.securityGroups props = None →
  constructor props σ = (Ok (assigned props (Some g) (Some [g])), σ).
Proof.
  intros Hmode Hg Hl. unfold constructor. rewrite Hg, Hl. simpl.
  rewrite bool_decide_eq_true_2 by assumption. reflexivity.
Qed.

Lemma constructor_found props σ g :
  ecs.networkMode (EcsTaskProps.taskDefinition props) = ecs.AWS_VPC →
  EcsTaskProps.securityGroup props = None →
  EcsTaskProps.securityGroups props = None →
  ConstructNode.children (node σ (EcsTaskProps.taskDefinition props))
    !! "SecurityGroup" = Some g →
  constructor props σ = (Ok (assigned props (Some g) (Some [g])), σ).
Proof.
  intros Hmode Hg Hl Hchild. unfold constructor. rewrite Hg, Hl. simpl.
  rewrite bool_decide_eq_true_2 by assumption. simpl.
  unfold mbind, tryFindChild. rewrite Hchild. reflexivity.
Qed.

Lemma constructor_created props σ :
  ecs.networkMode (EcsTaskProps.taskDefinition props) = ecs.AWS_VPC →
  EcsTaskProps.securityGroup props = None →
  EcsTaskProps.securityGroups props = None →
  ConstructNode.children (node σ (EcsTaskProps.taskDefinition props))
    !! "SecurityGroup" = None →
  constructor props σ =
    (Ok (assigned props (Some (created_group props σ).1)
                        (Some [(created_group props σ).1])),
     (created_group props σ).2).
Proof.
  intros Hmode Hg Hl Hchild. unfold constructor. rewrite Hg, Hl. simpl.
  rewrite bool_decide_eq_true_2 by assumption. simpl.
  unfold mbind, tryFindChild. rewrite Hchild. reflexivity.
Qed.

(** What [new SecurityGroup] leaves in the tree. *)
Lemma created_group_child props σ :
  ConstructNode.children
    (node (created_group props σ).2 (EcsTaskProps.taskDefinition props))
    !! "SecurityGroup" = Some (created_group props σ).1.
Proof.
  unfold created_group, SecurityGroup_new, node. simpl.
  rewrite lookup_insert_eq. simpl. apply lookup_insert_eq.
Qed.

(** C3. When both [securityGroup] and [securityGroups] are supplied the
    constructor throws "Only one of SecurityGroup or SecurityGroups can be
    populated." and leaves the construct tree as it found it: no warning
    is recorded and no child is looked up or created, whatever the network
    mode of the task definition, and no object is returned. *)
Theorem both_security_group_inputs_rejected (props : EcsTaskProps.t) (σ : Constructs) :
  is_Some (EcsTaskProps.securityGroup props) →
  is_Some (EcsTaskProps.securityGroups props) →
  constructor props σ
    = (Throw "Only one of SecurityGroup or SecurityGroups can be populated.", σ)
  ∧ ∀ (this : EcsTask.t) (σ' : Constructs), constructor props σ ≠ (Ok this, σ').
Proof.
  intros Hg Hl. rewrite (constructor_both props σ Hg Hl).
  split; [reflexivity | intros this σ' H; discriminate H].
Qed.

Lemma both_security_group_inputs_rejected_witness :
  (constructor (props_both ecs.AWS_VPC) ∅
     = (Throw "Only one of SecurityGroup or SecurityGroups can be populated.", ∅)
   ∧ ∀ (this : EcsTask.t) (σ' : Constructs),
       constructor (props_both ecs.AWS_VPC) ∅ ≠ (Ok this, σ'))
  ∧ (constructor (props_both ecs.HOST) ∅
       = (Throw "Only one of SecurityGroup or SecurityGroups can be populated.", ∅)
     ∧ ∀ (this : EcsTask.t) (σ' : Constructs),
         constructor (props_both ecs.HOST) ∅ ≠ (Ok this, σ')).
Proof.
  split.
  - apply (both_security_group_inputs_rejected (props_both ecs.AWS_VPC) ∅);
      simpl; eauto.
  - apply (both_security_group_inputs_rejected (props_both ecs.HOST) ∅);
      simpl; eauto.
Defined.

(** C8, as the code has it. When the network mode is not awsvpc and the
    two security-group properties are not both supplied, the constructor
    returns an object whose [securityGroup] and [securityGroups] are
    absent; the warning "security groups are ignored when network mode is
    not awsvpc" is appended to the warnings of the task definition exactly
    when one of the two properties was supplied, and nothing else in the
    tree changes. *)
Theorem not_awsvpc_ignores_security_groups (props : EcsTaskProps.t) (σ : Constructs) :
  ecs.networkMode (EcsTaskProps.taskDefinition props) ≠ ecs.AWS_VPC →
  ¬ (is_Some (EcsTaskProps.securityGroup props)
     ∧ is_Some (EcsTaskProps.securityGroups props)) →
  ∃ (this : EcsTask.t) (σ' : Constructs),
    constructor props σ = (Ok this, σ')
    ∧ EcsTask.securityGroup this = None
    ∧ EcsTask.securityGroups this = None
    ∧ ConstructNode.children (node σ' (EcsTaskProps.taskDefinition props))
        = ConstructNode.children (node σ (EcsTaskProps.taskDefinition props))
    ∧ ((is_Some (EcsTaskProps.securityGroup props)
        ∨ is_Some (EcsTaskProps.securityGroups props)) →
       ConstructNode.warnings (node σ' (EcsTaskProps.taskDefinition props))
         = ConstructNode.warnings (node σ (EcsTaskProps.taskDefinition props))
           ++ ["security groups are ignored when network mode is not awsvpc"])
    ∧ ((EcsTaskProps.securityGroup props = None
        ∧ EcsTaskProps.securityGroups props = None) → σ' = σ).
Proof.
  intros Hmode Hone.
  eexists _, _. split; [apply constructor_not_awsvpc; assumption |].
  split; [reflexivity |]. split; [reflexivity |].
  destruct (EcsTaskProps.securityGroup props) as [g|] eqn:Hg;
    destruct (EcsTaskProps.securityGroups props) as [l|] eqn:Hl; simpl.
  - exfalso. apply Hone. split; eauto.
  - unfold warned, addWarning, node. simpl. rewrite lookup_insert_eq. simpl.
    split; [reflexivity |]. split; [reflexivity |]. intros [H _]. discriminate H.
  - unfold warned, addWarning, node. simpl. rewrite lookup_insert_eq. simpl.
    split; [reflexivity |]. split; [reflexivity |]. intros [_ H]. discriminate H.
  - split; [reflexivity |]. split; [| reflexivity].
    intros [[? H] | [? H]]; discriminate H.
Qed.

Lemma not_awsvpc_ignores_security_groups_witness :
  ∃ (this : EcsTask.t) (σ' : Constructs),
    constructor (props_list ecs.BRIDGE) ∅ = (Ok this, σ')
    ∧ EcsTask.securityGroup this = None
    ∧ EcsTask.securityGroups this = None
    ∧ ConstructNode.children
        (node σ' (EcsTaskProps.taskDefinition (props_list ecs.BRIDGE)))
        = ConstructNode.children
            (node ∅ (EcsTaskProps.taskDefinition (props_list ecs.BRIDGE)))
    ∧ ((is_Some (EcsTaskProps.securityGroup (props_list ecs.BRIDGE))
        ∨ is_Some (EcsTaskProps.securityGroups (props_list ecs.BRIDGE))) →
       ConstructNode.warnings
         (node σ' (EcsTaskProps.taskDefinition (props_list ecs.BRIDGE)))
         = ConstructNode.warnings
             (node ∅ (EcsTaskProps.taskDefinition (props_list ecs.BRIDGE)))
           ++ ["security groups are ignored when network mode is not awsvpc"])
    ∧ ((EcsTaskProps.securityGroup (props_list ecs.BRIDGE) = None
        ∧ EcsTaskProps.securityGroups (props_list ecs.BRIDGE) = None) → σ' = ∅).
Proof.
  apply (not_awsvpc_ignores_security_groups (props_list ecs.BRIDGE) ∅).
  - simpl. discriminate.
  - simpl. intros [[g Hg] _]. discriminate Hg.
Defined.

(** C8 as stated fails: with a bridge-mode task definition and both
    security-group properties supplied, the constructor throws, so
    construction does not succeed and no warning is recorded although
    security-group input was supplied. *)
Lemma not_awsvpc_both_supplied_throws :
  ecs.networkMode (EcsTaskProps.taskDefinition (props_both ecs.BRIDGE)) ≠ ecs.AWS_VPC
  ∧ is_Some (EcsTaskProps.securityGroup (props_both ecs.BRIDGE))
  ∧ constructor (props_both ecs.BRIDGE) ∅
      = (Throw "Only one of SecurityGroup or SecurityGroups can be populated.", ∅)
  ∧ (∀ (this : EcsTask.t) (σ' : Constructs),
       constructor (props_both ecs.BRIDGE) ∅ ≠ (Ok this, σ'))
  ∧ ConstructNode.warnings
      (node (constructor (props_both ecs.BRIDGE) ∅).2
         (EcsTaskProps.taskDefinition (props_both ecs.BRIDGE)))
      = [].
Proof.
  split; [simpl; discriminate |]. split; [simpl; eauto |].
  split; [reflexivity |]. split; [| reflexivity].
  intros this σ' H. discriminate H.
Qed.

(** Whatever branch returns, the object is the one of lines 95 to 97 with
    its two security-group fields filled in. *)
Lemma constructor_assigned props σ this σ' :
  constructor props σ = (Ok this, σ') →
  ∃ securityGroup securityGroups, this = assigned props securityGroup securityGroups.
Proof.
  intros Hok.
  destruct (EcsTaskProps.securityGroups props) as [l|] eqn:Hl;
    destruct (EcsTaskProps.securityGroup props) as [legacy|] eqn:Hg;
    try (rewrite constructor_both in Hok by (rewrite ?Hg, ?Hl; eauto);
         discriminate Hok);
    destruct (decide (ecs.networkMode (EcsTaskProps.taskDefinition props)
                      = ecs.AWS_VPC)) as [Hmode|Hmode];
    try (rewrite constructor_not_awsvpc in Hok
           by (try assumption; rewrite ?Hg, ?Hl;
               intros [[? ?] [? ?]]; discriminate);
         injection Hok as <- _; eauto).
  - rewrite (constructor_explicit_list props σ l Hmode Hg Hl) in Hok.
    injection Hok as <- _. eauto.
  - rewrite (constructor_legacy props σ legacy Hmode Hg Hl) in Hok.
    injection Hok as <- _. eauto.
  - destruct (ConstructNode.children (node σ (EcsTaskProps.taskDefinition props))
                !! "SecurityGroup") as [child|] eqn:Hchild.
    + rewrite (constructor_found props σ child Hmode Hg Hl Hchild) in Hok.
      injection Hok as <- _. eauto.
    + rewrite (constructor_created props σ Hmode Hg Hl Hchild) in Hok.
      injection Hok as <- _. eauto.
Qed.

(** C4. With awsvpc network mode and neither security-group property
    supplied, the constructor returns an object whose [securityGroups]
    holds exactly one group, the same one as [securityGroup]; that group
    is the child "SecurityGroup" of the task definition afterwards, and a
    second construction on the same task definition returns that same
    group and leaves the construct tree unchanged, so no second group is
    created. *)
Theorem awsvpc_default_group_reused (props : EcsTaskProps.t) (σ : Constructs) :
  ecs.networkMode (EcsTaskProps.taskDefinition props) = ecs.AWS_VPC →
  EcsTaskProps.securityGroup props = None →
  EcsTaskProps.securityGroups props = None →
  ∃ (g : ec2.ISecurityGroup) (this : EcsTask.t) (σ1 : Constructs),
    constructor props σ = (Ok this, σ1)
    ∧ EcsTask.securityGroups this = Some [g]
    ∧ EcsTask.securityGroup this = Some g
    ∧ ConstructNode.children (node σ1 (EcsTaskProps.taskDefinition props))
        !! "SecurityGroup" = Some g
    ∧ ∀ props2 : EcsTaskProps.t,
        EcsTaskProps.taskDefinition props2 = EcsTaskProps.taskDefinition props →
        EcsTaskProps.securityGroup props2 = None →
        EcsTaskProps.securityGroups props2 = None →
        ∃ this2 : EcsTask.t,
          constructor props2 σ1 = (Ok this2, σ1)
          ∧ EcsTask.securityGroups this2 = Some [g]
          ∧ EcsTask.securityGroup this2 = Some g.
Proof.
  intros Hmode Hg Hl.
  destruct (ConstructNode.children (node σ (EcsTaskProps.taskDefinition props))
              !! "SecurityGroup") as [child|] eqn:Hchild.
  - exists child, (assigned props (Some child) (Some [child])), σ.
    split; [apply constructor_found; assumption |].
    split; [reflexivity |]. split; [reflexivity |]. split; [assumption |].
    intros props2 Htd Hg2 Hl2.
    exists (assigned props2 (Some child) (Some [child])).
    split; [| split; reflexivity].
    apply constructor_found; rewrite ?Htd; assumption.
  - exists (created_group props σ).1,
      (assigned props (Some (created_group props σ).1)
                      (Some [(created_group props σ).1])),
      (created_group props σ).2.
    split; [apply constructor_created; assumption |].
    split; [reflexivity |]. split; [reflexivity |].
    split; [apply created_group_child |].
    intros props2 Htd Hg2 Hl2.
    exists (assigned props2 (Some (created_group props σ).1)
                            (Some [(created_group props σ).1])).
    split; [| split; reflexivity].
    apply constructor_found; rewrite ?Htd; try assumption.
    apply created_group_child.
Qed.

Lemma awsvpc_default_group_reused_witness :
  ∃ (g : ec2.ISecurityGroup) (this : EcsTask.t) (σ1 : Constructs),
    constructor (props_plain ecs.AWS_VPC) ∅ = (Ok this, σ1)
    ∧ EcsTask.securityGroups this = Some [g]
    ∧ EcsTask.securityGroup this = Some g
    ∧ ConstructNode.children
        (node σ1 (EcsTaskProps.taskDefinition (props_plain ecs.AWS_VPC)))
        !! "SecurityGroup" = Some g
    ∧ ∀ props2 : EcsTaskProps.t,
        EcsTaskProps.taskDefinition props2
          = EcsTaskProps.taskDefinition (props_plain ecs.AWS_VPC) →
        EcsTaskProps.securityGroup props2 = None →
        EcsTaskProps.securityGroups props2 = None →
        ∃ this2 : EcsTask.t,
          constructor props2 σ1 = (Ok this2, σ1)
          ∧ EcsTask.securityGroups this2 = Some [g]
          ∧ EcsTask.securityGroup this2 = Some g.
Proof.
  apply (awsvpc_default_group_reused (props_plain ecs.AWS_VPC) ∅); reflexivity.
Defined.

(** C10. For every object the constructor returns for a task definition
    in awsvpc mode, [securityGroups] is defined: it is the supplied list
    when there is one, and otherwise the one-element list of the legacy
    group, else of the child "SecurityGroup" found, else of the group
    created; the network configuration [bind] returns then carries the
    identifiers of these groups, so its list is never absent. *)
Theorem awsvpc_security_groups_defined
    (singletonEventRole : ecs.TaskDefinition → list iam.PolicyStatement → iam.IRole)
    (props : EcsTaskProps.t) (σ σ' : Constructs) (this : EcsTask.t)
    (rule : events.IRule) (id : option string) :
  constructor props σ = (Ok this, σ') →
  ecs.networkMode (EcsTaskProps.taskDefinition props) = ecs.AWS_VPC →
  ∃ groups : list ec2.ISecurityGroup,
    EcsTask.securityGroups this = Some groups
    ∧ (∀ l, EcsTaskProps.securityGroups props = Some l → groups = l)
    ∧ (EcsTaskProps.securityGroups props = None →
       ∃ g, groups = [g]
            ∧ EcsTask.securityGroup this = Some g
            ∧ match EcsTaskProps.securityGroup props with
              | Some legacy => g = legacy
              | None =>
                  match ConstructNode.children
                          (node σ (EcsTaskProps.taskDefinition props))
                          !! "SecurityGroup" with
                  | Some child => g = child
                  | None => g = (created_group props σ).1
                  end
              end)
    ∧ ∃ nc : events.NetworkConfigurationProperty,
        events.networkConfiguration
          (events.ecsParameters (bind singletonEventRole this rule id)) = Some nc
        ∧ events.securityGroups (events.awsVpcConfiguration nc)
            = Some (map ec2.securityGroupId groups).
Proof.
  intros Hok Hmode.
  assert (Hbind : ∀ a groups,
    ∃ nc, events.networkConfiguration
            (events.ecsParameters
               (bind singletonEventRole (assigned props a (Some groups)) rule id))
          = Some nc
          ∧ events.securityGroups (events.awsVpcConfiguration nc)
            = Some (map ec2.securityGroupId groups)).
  { intros a groups. simpl. unfold ecsParameters. simpl.
    rewrite bool_decide_eq_true_2 by assumption. simpl. eauto. }
  destruct (EcsTaskProps.securityGroups props) as [l|] eqn:Hl;
    destruct (EcsTaskProps.securityGroup props) as [legacy|] eqn:Hg.
  - rewrite constructor_both in Hok by (rewrite ?Hg, ?Hl; eauto). discriminate.
  - rewrite (constructor_explicit_list props σ l Hmode Hg Hl) in Hok.
    injection Hok as <- _. exists l.
    split; [reflexivity |]. split; [congruence |]. split; [discriminate |].
    apply Hbind.
  - rewrite (constructor_legacy props σ legacy Hmode Hg Hl) in Hok.
    injection Hok as <- _. exists [legacy].
    split; [reflexivity |]. split; [discriminate |].
    split; [intros _; exists legacy; auto |]. apply Hbind.
  - destruct (ConstructNode.children (node σ (EcsTaskProps.taskDefinition props))
                !! "SecurityGroup") as [child|] eqn:Hchild.
    + rewrite (constructor_found props σ child Hmode Hg Hl Hchild) in Hok.
      injection Hok as <- _. exists [child].
      split; [reflexivity |]. split; [discriminate |].
      split; [intros _; exists child; auto |]. apply Hbind.
    + rewrite (constructor_created props σ Hmode Hg Hl Hchild) in Hok.
      injection Hok as <- _. exists [(created_group props σ).1].
      split; [reflexivity |]. split; [discriminate |].
      split; [intros _; eexists; eauto |]. apply Hbind.
Qed.

Lemma awsvpc_security_groups_defined_witness :
  ∃ groups : list ec2.ISecurityGroup,
    EcsTask.securityGroups
      (assigned (props_list ecs.AWS_VPC) None (Some [sample_group "sg-2"]))
      = Some groups
    ∧ (∀ l, EcsTaskProps.securityGroups (props_list ecs.AWS_VPC) = Some l → groups = l)
    ∧ (EcsTaskProps.securityGroups (props_list ecs.AWS_VPC) = None →
       ∃ g, groups = [g]
            ∧ EcsTask.securityGroup
                (assigned (props_list ecs.AWS_VPC) None (Some [sample_group "sg-2"]))
                = Some g
            ∧ match EcsTaskProps.securityGroup (props_list ecs.AWS_VPC) with
              | Some legacy => g = legacy
              | None =>
                  match ConstructNode.children
                          (node ∅ (EcsTaskProps.taskDefinition (props_list ecs.AWS_VPC)))
                          !! "SecurityGroup" with
                  | Some child => g = child
                  | None => g = (created_group (props_list ecs.AWS_VPC) ∅).1
                  end
              end)
    ∧ ∃ nc : events.NetworkConfigurationProperty,
        events.networkConfiguration
          (events.ecsParameters
             (bind sample_singletonEventRole
                (assigned (props_list ecs.AWS_VPC) None (Some [sample_group "sg-2"]))
                sample_rule None)) = Some nc
        ∧ events.securityGroups (events.awsVpcConfiguration nc)
            = Some (map ec2.securityGroupId groups).
Proof.
  apply (awsvpc_security_groups_defined sample_singletonEventRole
           (props_list ecs.AWS_VPC) ∅ ∅
           (assigned (props_list ecs.AWS_VPC) None (Some [sample_group "sg-2"]))
           sample_rule None); reflexivity.
Defined.

(** C1, as the code has it. For every object the constructor returns,
    the task count in the parameters [bind] returns is the supplied
    [taskCount] when there is one and 1 otherwise; the constructor does not
    look at the number, so the count is at least 1 exactly when no count
    below 1 was supplied. *)
Theorem taskCount_carried
    (singletonEventRole : ecs.TaskDefinition → list iam.PolicyStatement → iam.IRole)
    (props : EcsTaskProps.t) (σ σ' : Constructs) (this : EcsTask.t)
    (rule : events.IRule) (id : option string) :
  constructor props σ = (Ok this, σ') →
  events.taskCount (events.ecsParameters (bind singletonEventRole this rule id))
    = match EcsTaskProps.taskCount props with
      | Some n => n
      | None => 1
      end
  ∧ ((1 ≤ events.taskCount
            (events.ecsParameters (bind singletonEventRole this rule id)))%Z
     ↔ ∀ n, EcsTaskProps.taskCount props = Some n → (1 ≤ n)%Z).
Proof.
  intros Hok. destruct (constructor_assigned _ _ _ _ Hok) as (a & b & ->).
  assert (Hcount :
    events.taskCount (events.ecsParameters (bind singletonEventRole (assigned props a b) rule id))
    = match EcsTaskProps.taskCount props with Some n => n | None => 1 end).
  { simpl. unfold ecsParameters. case_bool_decide; reflexivity. }
  split; [exact Hcount |]. rewrite Hcount.
  destruct (EcsTaskProps.taskCount props) as [n|].
  - split; [intros H k [= <-]; exact H | intros H; apply H; reflexivity].
  - split; [intros _ k Hk; discriminate Hk | intros _; lia].
Qed.

Lemma taskCount_carried_witness :
  events.taskCount
    (events.ecsParameters
       (bind sample_singletonEventRole
          (assigned props_three None (Some [sample_group "sg-2"])) sample_rule None))
    = 3
  ∧ ((1 ≤ events.taskCount
            (events.ecsParameters
               (bind sample_singletonEventRole
                  (assigned props_three None (Some [sample_group "sg-2"]))
                  sample_rule None)))%Z
     ↔ ∀ n, EcsTaskProps.taskCount props_three = Some n → (1 ≤ n)%Z).
Proof.
  apply (taskCount_carried sample_singletonEventRole props_three ∅ ∅
           (assigned props_three None (Some [sample_group "sg-2"]))
           sample_rule None).
  reflexivity.
Defined.

(** C1 as stated fails: a task count of 0 is accepted by the constructor
    and carried into the parameters [bind] returns. *)
Lemma taskCount_zero_accepted :
  constructor props_zero_count ∅ = (Ok (assigned props_zero_count None None), ∅)
  ∧ events.taskCount
      (events.ecsParameters
         (bind sample_singletonEventRole
            (assigned props_zero_count None None) sample_rule None)) = 0
  ∧ ¬ (1 ≤ events.taskCount
             (events.ecsParameters
                (bind sample_singletonEventRole
                   (assigned props_zero_count None None) sample_rule None)))%Z.
Proof.
  split; [reflexivity |]. split; [reflexivity |]. simpl. lia.
Qed.

(** * Properties of [bind] *)

(** The statements as one list: the run-task statement, then the
    statement of the execution role, then the one of the task role. *)
Lemma policyStatements_eq (this : EcsTask.t) :
  policyStatements this
  = runTaskStatement this
    :: match ecs.executionRole (EcsTask.taskDefinition this) with
       | Some executionRole => [passRoleStatement executionRole]
       | None => []
       end
    ++ (if ecs.isFargateCompatible (EcsTask.taskDefinition this)
        then [passRoleStatement (ecs.taskRole (EcsTask.taskDefinition this))]
        else []).
Proof.
  unfold policyStatements.
  destruct (ecs.executionRole _), (ecs.isFargateCompatible _); reflexivity.
Qed.

Lemma passRoleStatement_inj (r1 r2 : iam.IRole) :
  passRoleStatement r1 = passRoleStatement r2 ↔ iam.roleArn r1 = iam.roleArn r2.
Proof.
  unfold passRoleStatement. split.
  - intros [= H]. exact H.
  - intros ->. reflexivity.
Qed.

Lemma passRoleStatement_not_runTask (r : iam.IRole) (this : EcsTask.t) :
  passRoleStatement r ≠ runTaskStatement this.
Proof. unfold passRoleStatement, runTaskStatement. intros [= H]. Qed.

(** C2, as the code has it. The statements [bind] hands to the role of
    the target start with the ecs:RunTask statement on the ARN of the task
    definition, with the condition ArnEquals on the ARN of the cluster;
    then comes an iam:PassRole statement on the ARN of the execution role
    when there is one, then an iam:PassRole statement on the ARN of the
    task role when the task definition is Fargate compatible; nothing
    else, so the four combinations give 1, 2, 2 and 3 statements. A
    statement for the execution role is in the list exactly when there is
    an execution role; a statement for the ARN of the task role is in the
    list exactly when the task definition is Fargate compatible or the
    execution role has that same ARN. *)
Theorem policy_statements_of_bind
    (singletonEventRole : ecs.TaskDefinition → list iam.PolicyStatement → iam.IRole)
    (this : EcsTask.t) (rule : events.IRule) (id : option string) :
  events.role (bind singletonEventRole this rule id)
    = singletonEventRole (EcsTask.taskDefinition this) (policyStatements this)
  ∧ policyStatements this !! 0%nat
    = Some {| iam.actions := ["ecs:RunTask"];
              iam.resources := [ecs.taskDefinitionArn (EcsTask.taskDefinition this)];
              iam.conditions :=
                Some [("ArnEquals",
                       [("ecs:cluster", ecs.clusterArn (EcsTask.cluster this))])] |}
  ∧ policyStatements this
    = runTaskStatement this
      :: match ecs.executionRole (EcsTask.taskDefinition this) with
         | Some executionRole =>
             [{| iam.actions := ["iam:PassRole"];
                 iam.resources := [iam.roleArn executionRole];
                 iam.conditions := None |}]
         | None => []
         end
      ++ (if ecs.isFargateCompatible (EcsTask.taskDefinition this)
          then [{| iam.actions := ["iam:PassRole"];
                   iam.resources :=
                     [iam.roleArn (ecs.taskRole (EcsTask.taskDefinition this))];
                   iam.conditions := None |}]
          else [])
  ∧ ((∃ executionRole,
        ecs.executionRole (EcsTask.taskDefinition this) = Some executionRole
        ∧ passRoleStatement executionRole ∈ policyStatements this)
     ↔ is_Some (ecs.executionRole (EcsTask.taskDefinition this)))
  ∧ (passRoleStatement (ecs.taskRole (EcsTask.taskDefinition this))
       ∈ policyStatements this
     ↔ ecs.isFargateCompatible (EcsTask.taskDefinition this) = true
       ∨ ∃ executionRole,
           ecs.executionRole (EcsTask.taskDefinition this) = Some executionRole
           ∧ iam.roleArn executionRole
             = iam.roleArn (ecs.taskRole (EcsTask.taskDefinition this)))
  ∧ length (policyStatements this)
    = match ecs.executionRole (EcsTask.taskDefinition this),
            ecs.isFargateCompatible (EcsTask.taskDefinition this) with
      | None, false => 1%nat
      | Some _, false => 2%nat
      | None, true => 2%nat
      | Some _, true => 3%nat
      end.
Proof.
  split; [reflexivity |].
  split; [rewrite policyStatements_eq; reflexivity |].
  split; [apply policyStatements_eq |].
  rewrite policyStatements_eq.
  pose proof (passRoleStatement_not_runTask
                (ecs.taskRole (EcsTask.taskDefinition this)) this) as Hne.
  destruct (ecs.executionRole (EcsTask.taskDefinition this)) as [er|] eqn:Her;
    destruct (ecs.isFargateCompatible (EcsTask.taskDefinition this)) eqn:Hf;
    simpl.
  - split; [| split; [| reflexivity]].
    + split; [eauto |]. intros _. exists er. split; [reflexivity |].
      apply list_elem_of_In. simpl. auto.
    + split; [auto |]. intros _. apply list_elem_of_In. simpl. auto.
  - split; [| split; [| reflexivity]].
    + split; [eauto |]. intros _. exists er. split; [reflexivity |].
      apply list_elem_of_In. simpl. auto.
    + split.
      * intros Hin. apply list_elem_of_In in Hin. simpl in Hin.
        destruct Hin as [H | [H | []]].
        -- symmetry in H. contradiction.
        -- right. exists er. split; [reflexivity |].
           apply passRoleStatement_inj. exact H.
      * intros [H | (er' & [= <-] & Harn)]; [discriminate |].
        apply list_elem_of_In. simpl. right. left.
        apply passRoleStatement_inj. exact Harn.
  - split; [| split; [| reflexivity]].
    + split; [intros (er & H & _); discriminate H | intros [er H]; discriminate H].
    + split; [auto |]. intros _. apply list_elem_of_In. simpl. auto.
  - split; [| split; [| reflexivity]].
    + split; [intros (er & H & _); discriminate H | intros [er H]; discriminate H].
    + split.
      * intros Hin. apply list_elem_of_In in Hin. simpl in Hin.
        destruct Hin as [H | []]. symmetry in H. contradiction.
      * intros [H | (er & H & _)]; discriminate H.
Qed.

(** C2 as stated fails: for an EC2-only task definition whose execution
    role is also its task role, the statements hold an iam:PassRole
    statement for the ARN of the task role although the task definition is
    not Fargate compatible. *)
Lemma pass_task_role_without_fargate :
  ecs.isFargateCompatible (EcsTaskProps.taskDefinition props_shared_role) = false
  ∧ policyStatements (assigned props_shared_role None None)
    = [runTaskStatement (assigned props_shared_role None None);
       {| iam.actions := ["iam:PassRole"];
          iam.resources :=
            [iam.roleArn (ecs.taskRole (EcsTaskProps.taskDefinition props_shared_role))];
          iam.conditions := None |}]
  ∧ ¬ (passRoleStatement (ecs.taskRole (EcsTaskProps.taskDefinition props_shared_role))
         ∈ policyStatements (assigned props_shared_role None None)
       ↔ ecs.isFargateCompatible (EcsTaskProps.taskDefinition props_shared_role) = true).
Proof.
  split; [reflexivity |]. split; [reflexivity |].
  intros [H _]. enough (false = true) by discriminate. apply H.
  apply list_elem_of_In. simpl. right. left. reflexivity.
Qed.

(** C5. In awsvpc mode the launch type [bind] returns is "EC2" whenever
    the task definition is EC2 compatible, whether or not it is Fargate
    compatible too, and "FARGATE" exactly when it is not EC2 compatible. *)
Theorem launch_type_prefers_ec2
    (singletonEventRole : ecs.TaskDefinition → list iam.PolicyStatement → iam.IRole)
    (this : EcsTask.t) (rule : events.IRule) (id : option string) :
  ecs.networkMode (EcsTask.taskDefinition this) = ecs.AWS_VPC →
  (ecs.isEc2Compatible (EcsTask.taskDefinition this) = true →
   events.launchType (events.ecsParameters (bind singletonEventRole this rule id))
     = Some "EC2")
  ∧ (events.launchType (events.ecsParameters (bind singletonEventRole this rule id))
       = Some "EC2"
     ∨ events.launchType (events.ecsParameters (bind singletonEventRole this rule id))
       = Some "FARGATE")
  ∧ (events.launchType (events.ecsParameters (bind singletonEventRole this rule id))
       = Some "FARGATE"
     ↔ ecs.isEc2Compatible (EcsTask.taskDefinition this) = false).
Proof.
  intros Hmode. simpl. unfold ecsParameters.
  rewrite bool_decide_eq_true_2 by assumption. simpl.
  destruct (ecs.isEc2Compatible (EcsTask.taskDefinition this)).
  - split; [reflexivity |]. split; [left; reflexivity |].
    split; intros H; discriminate H.
  - split; [intros H; discriminate H |]. split; [right; reflexivity |].
    split; reflexivity.
Qed.

Lemma launch_type_prefers_ec2_witness :
  (ecs.isEc2Compatible
     (EcsTask.taskDefinition (assigned (props_plain ecs.AWS_VPC) None (Some []))) = true →
   events.launchType
     (events.ecsParameters
        (bind sample_singletonEventRole
           (assigned (props_plain ecs.AWS_VPC) None (Some [])) sample_rule None))
     = Some "EC2")
  ∧ (events.launchType
       (events.ecsParameters
          (bind sample_singletonEventRole
             (assigned (props_plain ecs.AWS_VPC) None (Some [])) sample_rule None))
       = Some "EC2"
     ∨ events.launchType
         (events.ecsParameters
            (bind sample_singletonEventRole
               (assigned (props_plain ecs.AWS_VPC) None (Some [])) sample_rule None))
       = Some "FARGATE")
  ∧ (events.launchType
       (events.ecsParameters
          (bind sample_singletonEventRole
             (assigned (props_plain ecs.AWS_VPC) None (Some [])) sample_rule None))
       = Some "FARGATE"
     ↔ ecs.isEc2Compatible
         (EcsTask.taskDefinition (assigned (props_plain ecs.AWS_VPC) None (Some [])))
       = false).
Proof.
  apply (launch_type_prefers_ec2 sample_singletonEventRole
           (assigned (props_plain ecs.AWS_VPC) None (Some [])) sample_rule None).
  reflexivity.
Defined.

(** C6. The public-IP flag [bind] computes is "ENABLED" exactly when the
    subnet type of the resolved subnet selection is public and "DISABLED"
    otherwise; without a subnet selection in the properties the resolved
    one is the private subnets and the flag is "DISABLED". In awsvpc mode
    this flag is the one in the network configuration [bind] returns. *)
Theorem public_ip_iff_public_subnets
    (singletonEventRole : ecs.TaskDefinition → list iam.PolicyStatement → iam.IRole)
    (this : EcsTask.t) (rule : events.IRule) (id : option string) :
  (assignPublicIp this = "ENABLED"
   ↔ ec2.subnetType (subnetSelection this) = Some ec2.PUBLIC)
  ∧ (assignPublicIp this = "DISABLED"
     ↔ ec2.subnetType (subnetSelection this) ≠ Some ec2.PUBLIC)
  ∧ (EcsTaskProps.subnetSelection (EcsTask.props this) = None →
     ec2.subnetType (subnetSelection this) = Some ec2.PRIVATE
     ∧ assignPublicIp this = "DISABLED")
  ∧ (∀ selection,
       EcsTaskProps.subnetSelection (EcsTask.props this) = Some selection →
       subnetSelection this = selection)
  ∧ (ecs.networkMode (EcsTask.taskDefinition this) = ecs.AWS_VPC →
     ∃ nc : events.NetworkConfigurationProperty,
       events.networkConfiguration
         (events.ecsParameters (bind singletonEventRole this rule id)) = Some nc
       ∧ events.assignPublicIp (events.awsVpcConfiguration nc) = assignPublicIp this).
Proof.
  split; [| split; [| split; [| split]]].
  - unfold assignPublicIp. case_bool_decide as Hpub; split; intros Hflag;
      try assumption; try reflexivity; try discriminate Hflag; contradiction.
  - unfold assignPublicIp. case_bool_decide as Hpub; split; intros Hflag;
      try assumption; try reflexivity; try discriminate Hflag; contradiction.
  - intros Hnone. unfold assignPublicIp, subnetSelection. rewrite Hnone.
    split; reflexivity.
  - intros selection Hsel. unfold subnetSelection. rewrite Hsel. reflexivity.
  - intros Hmode. simpl. unfold ecsParameters.
    rewrite bool_decide_eq_true_2 by assumption. simpl. eauto.
Qed.

(** C7. When the network mode is not awsvpc the parameters [bind]
    returns hold the task count and the ARN of the task definition and
    neither a launch type nor a network configuration; in awsvpc mode they
    hold the same two and both a launch type and a network
    configuration. *)
Theorem ecs_parameters_by_network_mode
    (singletonEventRole : ecs.TaskDefinition → list iam.PolicyStatement → iam.IRole)
    (this : EcsTask.t) (rule : events.IRule) (id : option string) :
  events.taskCount (events.ecsParameters (bind singletonEventRole this rule id))
    = EcsTask.taskCount this
  ∧ events.taskDefinitionArn (events.ecsParameters (bind singletonEventRole this rule id))
    = ecs.taskDefinitionArn (EcsTask.taskDefinition this)
  ∧ (ecs.networkMode (EcsTask.taskDefinition this) ≠ ecs.AWS_VPC →
     events.ecsParameters (bind singletonEventRole this rule id)
     = {| events.taskCount := EcsTask.taskCount this;
          events.taskDefinitionArn :=
            ecs.taskDefinitionArn (EcsTask.taskDefinition this);
          events.launchType := None;
          events.networkConfiguration := None |})
  ∧ (ecs.networkMode (EcsTask.taskDefinition this) = ecs.AWS_VPC →
     is_Some (events.launchType
                (events.ecsParameters (bind singletonEventRole this rule id)))
     ∧ is_Some (events.networkConfiguration
                  (events.ecsParameters (bind singletonEventRole this rule id)))).
Proof.
  simpl. unfold ecsParameters.
  case_bool_decide as Hmode; simpl.
  - split; [reflexivity |]. split; [reflexivity |].
    split; [intros H; contradiction | intros _; split; eauto].
  - split; [reflexivity |]. split; [reflexivity |].
    split; [reflexivity | intros H; contradiction].
Qed.

(** The properties of a renamed override: [name] holds what
    [containerName] held, [containerName] is gone, and the rest is as it
    was. *)
Lemma renameContainerName_lookup (o : ContainerOverride) :
  is_ContainerOverride o →
  renameContainerName o !! "name" = o !! "containerName"
  ∧ renameContainerName o !! "containerName" = None
  ∧ ∀ k, k ≠ "name" → k ≠ "containerName" → renameContainerName o !! k = o !! k.
Proof.
  intros [Hname Hdeclared].
  assert (o !! "name" = None) as Hfree.
  { apply not_elem_of_dom. intros Hin. apply Hdeclared in Hin.
    revert Hin. unfold ContainerOverride_properties.
    rewrite elem_of_list_to_set. intros Hin.
    apply list_elem_of_In in Hin. simpl in Hin.
    destruct Hin as [H|[H|[H|[H|[H|[H|[]]]]]]]; discriminate H. }
  apply elem_of_dom in Hname as [v Hv].
  unfold renameContainerName, js_literal_spread, js_rest, js_get.
  split; [| split].
  - rewrite lookup_union_r by (rewrite lookup_delete_ne by discriminate; exact Hfree).
    rewrite lookup_singleton_eq, Hv. reflexivity.
  - apply lookup_union_None. split.
    + apply lookup_delete_eq.
    + apply lookup_singleton_ne. discriminate.
  - intros k Hk1 Hk2.
    rewrite lookup_union_l by (apply lookup_singleton_ne; congruence).
    apply lookup_delete_ne. congruence.
Qed.

(** C9. The payload [bind] returns has no override list when the
    properties have none. When they have one, whose entries are container
    overrides, the payload has as many entries in the same order, and the
    entry at each place has under [name] what the supplied entry has under
    [containerName], has no [containerName], and agrees with the supplied
    entry on every other property. *)
Theorem container_overrides_renamed
    (singletonEventRole : ecs.TaskDefinition → list iam.PolicyStatement → iam.IRole)
    (this : EcsTask.t) (rule : events.IRule) (id : option string) :
  Forall is_ContainerOverride
    (default [] (EcsTaskProps.containerOverrides (EcsTask.props this))) →
  match EcsTaskProps.containerOverrides (EcsTask.props this) with
  | None =>
      events.containerOverrides
        (payload (events.input (bind singletonEventRole this rule id))) = None
  | Some overrides =>
      ∃ renamed : list JsObject,
        events.containerOverrides
          (payload (events.input (bind singletonEventRole this rule id)))
          = Some renamed
        ∧ length renamed = length overrides
        ∧ ∀ (i : nat) (o : ContainerOverride),
            overrides !! i = Some o →
            ∃ o' : JsObject,
              renamed !! i = Some o'
              ∧ o' !! "name" = o !! "containerName"
              ∧ o' !! "containerName" = None
              ∧ ∀ k, k ≠ "name" → k ≠ "containerName" → o' !! k = o !! k
  end.
Proof.
  intros Htyped. simpl. unfold containerOverrides.
  destruct (EcsTaskProps.containerOverrides (EcsTask.props this)) as [overrides|];
    [| reflexivity].
  simpl in Htyped. exists (map renameContainerName overrides).
  split; [reflexivity |]. split; [apply length_map |].
  intros i o Hi. exists (renameContainerName o).
  split.
  - change (map renameContainerName overrides) with (renameContainerName <$> overrides).
    rewrite list_lookup_fmap, Hi. reflexivity.
  - apply renameContainerName_lookup.
    rewrite Forall_forall in Htyped. apply Htyped.
    apply list_elem_of_lookup. eauto.
Qed.

Lemma container_overrides_renamed_witness :
  ∃ renamed : list JsObject,
    events.containerOverrides
      (payload
         (events.input
            (bind sample_singletonEventRole
               (assigned props_overrides None (Some [sample_group "sg-2"]))
               sample_rule None)))
      = Some renamed
    ∧ length renamed = length [override_web; override_worker]
    ∧ ∀ (i : nat) (o : ContainerOverride),
        [override_web; override_worker] !! i = Some o →
        ∃ o' : JsObject,
          renamed !! i = Some o'
          ∧ o' !! "name" = o !! "containerName"
          ∧ o' !! "containerName" = None
          ∧ ∀ k, k ≠ "name" → k ≠ "containerName" → o' !! k = o !! k.
Proof.
  apply (container_overrides_renamed sample_singletonEventRole
           (assigned props_overrides None (Some [sample_group "sg-2"]))
           sample_rule None).
  apply (bool_decide_unpack _). vm_compute. exact I.
Defined.

(** * The sample target, run *)

(** On an empty tree the constructor creates the group as a child of the
    task definition; run again on the tree it left, it returns that group
    and the tree is the same. *)
Example constructor_creates_then_reuses :
  ∃ σ1 : Constructs,
    constructor (props_plain ecs.AWS_VPC) ∅
      = (Ok (assigned (props_plain ecs.AWS_VPC)
               (Some (sample_group "Stack/TaskDef/SecurityGroup.GroupId@vpc-0a1b"))
               (Some [sample_group "Stack/TaskDef/SecurityGroup.GroupId@vpc-0a1b"])),
         σ1)
    ∧ constructor (props_plain ecs.AWS_VPC) σ1
      = (Ok (assigned (props_plain ecs.AWS_VPC)
               (Some (sample_group "Stack/TaskDef/SecurityGroup.GroupId@vpc-0a1b"))
               (Some [sample_group "Stack/TaskDef/SecurityGroup.GroupId@vpc-0a1b"])),
         σ1).
Proof.
  eexists. split.
  - rewrite constructor_created by reflexivity. reflexivity.
  - apply constructor_found; reflexivity.
Qed.

(** The parameters of the sample target with overrides: Fargate only,
    public subnets, one explicit security group. *)
Example ecsParameters_of_sample :
  events.ecsParameters
    (bind sample_singletonEventRole
       (assigned props_overrides None (Some [sample_group "sg-2"])) sample_rule None)
  = {| events.taskCount := 1;
       events.taskDefinitionArn :=
         "arn:aws:ecs:eu-west-1:111122223333:task-definition/job:1";
       events.launchType := Some "FARGATE";
       events.networkConfiguration :=
         Some {| events.awsVpcConfiguration :=
                   {| events.subnets := ["subnet-public-1"];
                      events.assignPublicIp := "ENABLED";
                      events.securityGroups := Some ["sg-2"] |} |} |}.
Proof. reflexivity. Qed.

(** The first override of the sample, renamed. *)
Example renameContainerName_web :
  renameContainerName override_web
  = {[ "name" := JString "web";
       "command" := JArray [JString "serve"; JString "--port"; JString "80"];
       "cpu" := JNumber 256 ]}.
Proof. vm_compute. reflexivity. Qed.

(** * Further properties of the constructor *)

(** Every call ends in one of the outcomes. *)
Lemma constructor_outcome (props : EcsTaskProps.t) (σ : Constructs) :
  Outcome props σ (constructor props σ).
Proof.
  destruct (EcsTaskProps.securityGroups props) as [l|] eqn:Hl;
    destruct (EcsTaskProps.securityGroup props) as [g|] eqn:Hg.
  - rewrite constructor_both by (rewrite ?Hg, ?Hl; eauto).
    eapply rejected; eassumption.
  - destruct (decide (ecs.networkMode (EcsTaskProps.taskDefinition props)
                      = ecs.AWS_VPC)) as [Hmode|Hmode].
    + rewrite (constructor_explicit_list props σ l Hmode Hg Hl).
      apply explicit_list; assumption.
    + rewrite constructor_not_awsvpc
        by (try assumption; rewrite Hg; intros [[? ?] _]; discriminate).
      rewrite Hg, Hl. simpl. eapply ignored_list; eassumption.
  - destruct (decide (ecs.networkMode (EcsTaskProps.taskDefinition props)
                      = ecs.AWS_VPC)) as [Hmode|Hmode].
    + rewrite (constructor_legacy props σ g Hmode Hg Hl).
      apply legacy_group; assumption.
    + rewrite constructor_not_awsvpc
        by (try assumption; rewrite Hl; intros [_ [? ?]]; discriminate).
      rewrite Hg, Hl. simpl. eapply ignored_legacy; eassumption.
  - destruct (decide (ecs.networkMode (EcsTaskProps.taskDefinition props)
                      = ecs.AWS_VPC)) as [Hmode|Hmode].
    + destruct (ConstructNode.children (node σ (EcsTaskProps.taskDefinition props))
                  !! "SecurityGroup") as [c|] eqn:Hchild.
      * rewrite (constructor_found props σ c Hmode Hg Hl Hchild).
        apply found_child; assumption.
      * rewrite (constructor_created props σ Hmode Hg Hl Hchild).
        apply created_child; assumption.
    + rewrite constructor_not_awsvpc
        by (try assumption; rewrite Hl; intros [_ [? ?]]; discriminate).
      rewrite Hg, Hl. simpl. apply not_applicable; assumption.
Qed.

(** The node of the task definition and the rest of the tree after a
    warning and after the creation of the group. *)
Lemma node_warned σ c :
  node (warned σ c) c
  = {| ConstructNode.children := ConstructNode.children (node σ c);
       ConstructNode.warnings := ConstructNode.warnings (node σ c) ++ [ignored_message] |}.
Proof. unfold warned, addWarning, node. simpl. rewrite lookup_insert_eq. reflexivity. Qed.


Lemma node_created props σ :
  node (created_group props σ).2 (EcsTaskProps.taskDefinition props)
  = {| ConstructNode.children :=
         <[ "SecurityGroup" := (created_group props σ).1 ]>
           (ConstructNode.children (node σ (EcsTaskProps.taskDefinition props)));
       ConstructNode.warnings :=
         ConstructNode.warnings (node σ (EcsTaskProps.taskDefinition props)) |}.
Proof.
  unfold created_group, SecurityGroup_new, node. simpl.
  rewrite lookup_insert_eq. reflexivity.
Qed.


Lemma warned_changes σ c : warned σ c ≠ σ.
Proof.
  intros Heq. pose proof (node_warned σ c) as Hn. rewrite Heq in Hn.
  apply (f_equal (λ n, length (ConstructNode.warnings n))) in Hn.
  simpl in Hn. rewrite length_app in Hn. simpl in Hn. lia.
Qed.

Lemma created_changes props σ :
  ConstructNode.children (node σ (EcsTaskProps.taskDefinition props))
    !! "SecurityGroup" = None →
  (created_group props σ).2 ≠ σ.
Proof.
  intros Hnone Heq. pose proof (created_group_child props σ) as Hc.
  rewrite Heq in Hc. congruence.
Qed.

(** Closes a goal whose hypotheses disagree on what was supplied or on
    the network mode. *)
Ltac clash :=
  repeat match goal with
         | H : is_Some _ |- _ => destruct H as [? H]
         | H : _ ∧ _ |- _ => destruct H
         | H : _ ∨ _ |- _ => destruct H
         | H : ∃ _, _ |- _ => destruct H
         end;
  try congruence; try contradiction.

(** X1. The constructor returns an object exactly when the two
    security-group properties are not both supplied: the check of lines
    91 to 93 is its only way to fail. *)
Theorem constructor_succeeds_iff_not_both (props : EcsTaskProps.t) (σ : Constructs) :
  (∃ (this : EcsTask.t) (σ' : Constructs), constructor props σ = (Ok this, σ'))
  ↔ ¬ (is_Some (EcsTaskProps.securityGroup props)
       ∧ is_Some (EcsTaskProps.securityGroups props)).
Proof.
  destruct (constructor_outcome props σ);
    (split; [intros (this & σ' & Hok) Hboth; clash | intros Hnot; eauto]).
  exfalso. apply Hnot. split; eauto.
Qed.

(** X2. The constructor changes the construct tree in two cases only:
    when it records the warning (network mode not awsvpc and exactly one
    security-group property supplied) and when it creates the group
    (awsvpc, no property supplied, no child "SecurityGroup" yet). In every
    other case, the failing one included, the tree is as it was. *)
Theorem constructor_changes_tree_iff (props : EcsTaskProps.t) (σ : Constructs) :
  (constructor props σ).2 ≠ σ
  ↔ (ecs.networkMode (EcsTaskProps.taskDefinition props) ≠ ecs.AWS_VPC
     ∧ ((is_Some (EcsTaskProps.securityGroup props)
         ∧ EcsTaskProps.securityGroups props = None)
        ∨ (EcsTaskProps.securityGroup props = None
           ∧ is_Some (EcsTaskProps.securityGroups props))))
    ∨ (ecs.networkMode (EcsTaskProps.taskDefinition props) = ecs.AWS_VPC
       ∧ EcsTaskProps.securityGroup props = None
       ∧ EcsTaskProps.securityGroups props = None
       ∧ ConstructNode.children (node σ (EcsTaskProps.taskDefinition props))
           !! "SecurityGroup" = None).
Proof.
  destruct (constructor_outcome props σ); simpl.
  - split; [intros Hchg; contradiction | intros Hcase; clash].
  - split; [intros Hchg; contradiction | intros Hcase; clash].
  - split; [intros _; left; eauto | intros _; apply warned_changes].
  - split; [intros _; left; eauto | intros _; apply warned_changes].
  - split; [intros Hchg; contradiction | intros Hcase; clash].
  - split; [intros Hchg; contradiction | intros Hcase; clash].
  - split; [intros Hchg; contradiction | intros Hcase; clash].
  - split; [intros _; right; auto | intros _; apply created_changes; assumption].
Qed.

(** X3. Every object the constructor returns keeps the cluster, the task
    definition and the properties it was given; its [securityGroups] is
    absent exactly when the network mode is not awsvpc; its legacy
    [securityGroup] is set exactly in awsvpc mode without an explicit
    list, and whenever it is set [securityGroups] is the one-element list
    of that same group. *)
Theorem constructed_object_invariant
    (props : EcsTaskProps.t) (σ σ' : Constructs) (this : EcsTask.t) :
  constructor props σ = (Ok this, σ') →
  EcsTask.cluster this = EcsTaskProps.cluster props
  ∧ EcsTask.taskDefinition this = EcsTaskProps.taskDefinition props
  ∧ EcsTask.props this = props
  ∧ (EcsTask.securityGroups this = None
     ↔ ecs.networkMode (EcsTaskProps.taskDefinition props) ≠ ecs.AWS_VPC)
  ∧ (is_Some (EcsTask.securityGroup this)
     ↔ ecs.networkMode (EcsTaskProps.taskDefinition props) = ecs.AWS_VPC
       ∧ EcsTaskProps.securityGroups props = None)
  ∧ (∀ g, EcsTask.securityGroup this = Some g →
          EcsTask.securityGroups this = Some [g]).
Proof.
  intros Hok. pose proof (constructor_outcome props σ) as Hout.
  rewrite Hok in Hout.
  inversion Hout; subst; simpl;
    (split; [reflexivity |]); (split; [reflexivity |]); (split; [reflexivity |]);
    (split; [split; intros; clash |]);
    (split; [split; intros; clash; eauto |]);
    intros g0 Hg0; clash.
Qed.

Lemma constructed_object_invariant_witness :
  EcsTask.cluster
    (assigned (props_legacy ecs.AWS_VPC)
       (Some (sample_group "sg-1")) (Some [sample_group "sg-1"]))
    = EcsTaskProps.cluster (props_legacy ecs.AWS_VPC)
  ∧ EcsTask.taskDefinition
      (assigned (props_legacy ecs.AWS_VPC)
         (Some (sample_group "sg-1")) (Some [sample_group "sg-1"]))
    = EcsTaskProps.taskDefinition (props_legacy ecs.AWS_VPC)
  ∧ EcsTask.props
      (assigned (props_legacy ecs.AWS_VPC)
         (Some (sample_group "sg-1")) (Some [sample_group "sg-1"]))
    = props_legacy ecs.AWS_VPC
  ∧ (EcsTask.securityGroups
       (assigned (props_legacy ecs.AWS_VPC)
          (Some (sample_group "sg-1")) (Some [sample_group "sg-1"])) = None
     ↔ ecs.networkMode (EcsTaskProps.taskDefinition (props_legacy ecs.AWS_VPC))
       ≠ ecs.AWS_VPC)
  ∧ (is_Some (EcsTask.securityGroup
                (assigned (props_legacy ecs.AWS_VPC)
                   (Some (sample_group "sg-1")) (Some [sample_group "sg-1"])))
     ↔ ecs.networkMode (EcsTaskProps.taskDefinition (props_legacy ecs.AWS_VPC))
       = ecs.AWS_VPC
       ∧ EcsTaskProps.securityGroups (props_legacy ecs.AWS_VPC) = None)
  ∧ (∀ g, EcsTask.securityGroup
            (assigned (props_legacy ecs.AWS_VPC)
               (Some (sample_group "sg-1")) (Some [sample_group "sg-1"])) = Some g →
          EcsTask.securityGroups
            (assigned (props_legacy ecs.AWS_VPC)
               (Some (sample_group "sg-1")) (Some [sample_group "sg-1"]))
          = Some [g]).
Proof.
  apply (constructed_object_invariant (props_legacy ecs.AWS_VPC)
           tree_with_child tree_with_child).
  reflexivity.
Defined.


(** X5. The constructor never removes or replaces a child of the task
    definition: the children before the call are among the children after
    it, with the same values. *)
Theorem constructor_keeps_children (props : EcsTaskProps.t) (σ : Constructs) :
  ConstructNode.children (node σ (EcsTaskProps.taskDefinition props))
  ⊆ ConstructNode.children
      (node (constructor props σ).2 (EcsTaskProps.taskDefinition props)).
Proof.
  destruct (constructor_outcome props σ); cbn [snd]; try reflexivity.
  - rewrite node_warned. reflexivity.
  - rewrite node_warned. reflexivity.
  - rewrite node_created. simpl. apply insert_subseteq. assumption.
Qed.

(** X6. The warnings of the task definition after a constructor call are
    those before it followed by the one warning "security groups are
    ignored when network mode is not awsvpc" when the network mode is not
    awsvpc and exactly one security-group property is supplied, and by
    nothing otherwise: no warning is ever recorded in awsvpc mode or by a
    call that throws, and none is removed. *)
Theorem constructor_warnings (props : EcsTaskProps.t) (σ : Constructs) :
  ConstructNode.warnings
    (node (constructor props σ).2 (EcsTaskProps.taskDefinition props))
  = ConstructNode.warnings (node σ (EcsTaskProps.taskDefinition props))
    ++ (if negb (bool_decide (ecs.networkMode (EcsTaskProps.taskDefinition props)
                              = ecs.AWS_VPC))
           && xorb (defined (EcsTaskProps.securityGroup props))
                   (defined (EcsTaskProps.securityGroups props))
        then ["security groups are ignored when network mode is not awsvpc"]
        else []).
Proof.
  destruct (constructor_outcome props σ) as
    [g l Hg Hl | Hmode Hg Hl | g Hmode Hg Hl | l Hmode Hg Hl
     | l Hmode Hg Hl | g Hmode Hg Hl | c Hmode Hg Hl Hc | Hmode Hg Hl Hc];
    cbn [snd]; rewrite Hg, Hl; cbn [defined xorb];
    rewrite ?(bool_decide_eq_false_2 _ Hmode), ?(bool_decide_eq_true_2 _ Hmode);
    cbn [negb andb app]; rewrite ?andb_false_r, ?app_nil_r; try reflexivity.
  - rewrite node_warned. reflexivity.
  - rewrite node_warned. reflexivity.
  - rewrite node_created. reflexivity.
Qed.

(** X7. In awsvpc mode the constructor is idempotent on the tree it
    leaves: called again with the same properties it returns the same
    object and changes nothing, whichever of the explicit list, the legacy
    group, a child found or a child just created it first resolved to. *)
Theorem awsvpc_constructor_idempotent
    (props : EcsTaskProps.t) (σ σ1 : Constructs) (this : EcsTask.t) :
  ecs.networkMode (EcsTaskProps.taskDefinition props) = ecs.AWS_VPC →
  constructor props σ = (Ok this, σ1) →
  constructor props σ1 = (Ok this, σ1).
Proof.
  intros Hmode Hok. pose proof (constructor_outcome props σ) as Hout.
  rewrite Hok in Hout. inversion Hout; subst; try contradiction.
  - apply constructor_explicit_list; assumption.
  - apply constructor_legacy; assumption.
  - apply constructor_found; assumption.
  - apply constructor_found; try assumption. apply created_group_child.
Qed.

Lemma awsvpc_constructor_idempotent_witness :
  constructor (props_plain ecs.AWS_VPC) (created_group (props_plain ecs.AWS_VPC) ∅).2
  = (Ok (assigned (props_plain ecs.AWS_VPC)
           (Some (created_group (props_plain ecs.AWS_VPC) ∅).1)
           (Some [(created_group (props_plain ecs.AWS_VPC) ∅).1])),
     (created_group (props_plain ecs.AWS_VPC) ∅).2).
Proof.
  apply (awsvpc_constructor_idempotent (props_plain ecs.AWS_VPC) ∅).
  - reflexivity.
  - reflexivity.
Defined.

(** X8. Outside awsvpc mode the constructor is not idempotent when a
    security-group property is supplied: each call records the warning
    again, so two calls with the same properties leave it twice at the end
    of the warnings of the task definition. *)
Theorem ignored_input_warns_every_time (props : EcsTaskProps.t) (σ : Constructs) :
  ecs.networkMode (EcsTaskProps.taskDefinition props) ≠ ecs.AWS_VPC →
  xorb (defined (EcsTaskProps.securityGroup props))
       (defined (EcsTaskProps.securityGroups props)) = true →
  ∃ (this : EcsTask.t) (σ1 σ2 : Constructs),
    constructor props σ = (Ok this, σ1)
    ∧ constructor props σ1 = (Ok this, σ2)
    ∧ ConstructNode.warnings (node σ2 (EcsTaskProps.taskDefinition props))
      = ConstructNode.warnings (node σ (EcsTaskProps.taskDefinition props))
        ++ ["security groups are ignored when network mode is not awsvpc";
            "security groups are ignored when network mode is not awsvpc"].
Proof.
  intros Hmode Hone.
  assert (Hnot : ¬ (is_Some (EcsTaskProps.securityGroup props)
                    ∧ is_Some (EcsTaskProps.securityGroups props))).
  { intros [[g Hg] [l Hl]]. rewrite Hg, Hl in Hone. discriminate Hone. }
  assert (Hsup : defined (EcsTaskProps.securityGroup props)
                 || defined (EcsTaskProps.securityGroups props) = true).
  { destruct (defined (EcsTaskProps.securityGroup props)),
             (defined (EcsTaskProps.securityGroups props));
      simpl in *; congruence. }
  eexists _, _, _.
  split; [rewrite constructor_not_awsvpc by assumption; rewrite Hsup; reflexivity |].
  split; [rewrite constructor_not_awsvpc by assumption; rewrite Hsup; reflexivity |].
  rewrite !node_warned. simpl. rewrite <- app_assoc. reflexivity.
Qed.

Lemma ignored_input_warns_every_time_witness :
  ∃ (this : EcsTask.t) (σ1 σ2 : Constructs),
    constructor (props_legacy ecs.HOST) tree_with_child = (Ok this, σ1)
    ∧ constructor (props_legacy ecs.HOST) σ1 = (Ok this, σ2)
    ∧ ConstructNode.warnings
        (node σ2 (EcsTaskProps.taskDefinition (props_legacy ecs.HOST)))
      = ConstructNode.warnings
          (node tree_with_child (EcsTaskProps.taskDefinition (props_legacy ecs.HOST)))
        ++ ["security groups are ignored when network mode is not awsvpc";
            "security groups are ignored when network mode is not awsvpc"].
Proof.
  apply (ignored_input_warns_every_time (props_legacy ecs.HOST) tree_with_child).
  - simpl. discriminate.
  - reflexivity.
Defined.

(** X9. An explicit list that is empty counts as supplied: in awsvpc
    mode the constructor then creates no group and looks none up, the
    tree stays as it was, the legacy field stays absent, and the network
    configuration [bind] returns carries a list of security-group ids that
    is present and empty. *)
Theorem empty_explicit_list_creates_nothing
    (singletonEventRole : ecs.TaskDefinition → list iam.PolicyStatement → iam.IRole)
    (props : EcsTaskProps.t) (σ : Constructs)
    (rule : events.IRule) (id : option string) :
  ecs.networkMode (EcsTaskProps.taskDefinition props) = ecs.AWS_VPC →
  EcsTaskProps.securityGroup props = None →
  EcsTaskProps.securityGroups props = Some [] →
  ∃ this : EcsTask.t,
    constructor props σ = (Ok this, σ)
    ∧ EcsTask.securityGroup this = None
    ∧ EcsTask.securityGroups this = Some []
    ∧ ∃ nc : events.NetworkConfigurationProperty,
        events.networkConfiguration
          (events.ecsParameters (bind singletonEventRole this rule id)) = Some nc
        ∧ events.securityGroups (events.awsVpcConfiguration nc) = Some [].
Proof.
  intros Hmode Hg Hl. exists (assigned props None (Some [])).
  split; [apply constructor_explicit_list; assumption |].
  split; [reflexivity |]. split; [reflexivity |].
  simpl. unfold ecsParameters. simpl.
  rewrite bool_decide_eq_true_2 by assumption. simpl. eauto.
Qed.

Lemma empty_explicit_list_creates_nothing_witness :
  ∃ this : EcsTask.t,
    constructor props_empty_list ∅ = (Ok this, ∅)
    ∧ EcsTask.securityGroup this = None
    ∧ EcsTask.securityGroups this = Some []
    ∧ ∃ nc : events.NetworkConfigurationProperty,
        events.networkConfiguration
          (events.ecsParameters
             (bind sample_singletonEventRole this sample_rule None)) = Some nc
        ∧ events.securityGroups (events.awsVpcConfiguration nc) = Some [].
Proof.
  apply (empty_explicit_list_creates_nothing sample_singletonEventRole
           props_empty_list ∅ sample_rule None); reflexivity.
Defined.

(** * Further properties of [bind] *)

(** X10. The statements [bind] builds are between one and three; each
    names exactly one resource and grants ecs:RunTask or iam:PassRole and
    nothing else; the first statement is the only one that carries a
    condition. *)
Theorem policy_statements_wellformed (this : EcsTask.t) :
  (1 ≤ length (policyStatements this) ≤ 3)%nat
  ∧ Forall (λ s, length (iam.resources s) = 1%nat
                 ∧ (iam.actions s = ["ecs:RunTask"] ∨ iam.actions s = ["iam:PassRole"]))
      (policyStatements this)
  ∧ ∀ (i : nat) (s : iam.PolicyStatement),
      policyStatements this !! i = Some s →
      (is_Some (iam.conditions s) ↔ i = 0%nat).
Proof.
  rewrite policyStatements_eq.
  destruct (ecs.executionRole (EcsTask.taskDefinition this)) as [er|];
    destruct (ecs.isFargateCompatible (EcsTask.taskDefinition this)); simpl;
    (split; [lia |]);
    (split; [repeat (apply Forall_cons_2; [simpl; auto |]); apply Forall_nil_2 |]);
    intros i s Hs;
    repeat (destruct i as [|i]; simpl in Hs;
            [injection Hs as <-; simpl; split;
             [intros [c Hc]; first [reflexivity | discriminate Hc]
             | intros Hi; first [discriminate Hi | eauto]] |]);
    discriminate Hs.
Qed.

(** X11. Statements are never merged: the number of iam:PassRole
    statements for a role in the list is one for the execution role if it
    has the ARN of that role, plus one for the task role if the task
    definition is Fargate compatible and the task role has that ARN. A
    Fargate task definition whose execution role is its task role gets the
    same statement twice. *)
Theorem pass_role_statements_counted (this : EcsTask.t) (r : iam.IRole) :
  length (filter (λ s, s = passRoleStatement r) (policyStatements this))
  = ((match ecs.executionRole (EcsTask.taskDefinition this) with
      | Some executionRole =>
          if bool_decide (iam.roleArn executionRole = iam.roleArn r) then 1 else 0
      | None => 0
      end)
     + (if ecs.isFargateCompatible (EcsTask.taskDefinition this)
           && bool_decide (iam.roleArn (ecs.taskRole (EcsTask.taskDefinition this))
                           = iam.roleArn r)
        then 1 else 0))%nat.
Proof.
  rewrite policyStatements_eq.
  assert (Hrun : filter (λ s, s = passRoleStatement r) [runTaskStatement this] = []).
  { rewrite filter_cons_False; [reflexivity |].
    intros H. symmetry in H. exact (passRoleStatement_not_runTask _ _ H). }
  assert (Hpass : ∀ r', length (filter (λ s, s = passRoleStatement r)
                                  [passRoleStatement r'])
                        = if bool_decide (iam.roleArn r' = iam.roleArn r)
                          then 1%nat else 0%nat).
  { intros r'. case_bool_decide as Harn.
    - rewrite filter_cons_True by (apply passRoleStatement_inj; exact Harn).
      reflexivity.
    - rewrite filter_cons_False
        by (intros H; apply Harn; apply passRoleStatement_inj; exact H).
      reflexivity. }
  change (runTaskStatement this :: ?l) with ([runTaskStatement this] ++ l).
  rewrite !filter_app, Hrun, !length_app. simpl.
  f_equal.
  - destruct (ecs.executionRole (EcsTask.taskDefinition this)) as [er|];
      [apply Hpass | reflexivity].
  - destruct (ecs.isFargateCompatible (EcsTask.taskDefinition this));
      [apply Hpass | reflexivity].
Qed.

(** Where an object has no property [name], as every container override
    by its type. *)
Lemma ContainerOverride_no_name (o : ContainerOverride) :
  is_ContainerOverride o → o !! "name" = None.
Proof.
  intros [_ Hdeclared]. apply not_elem_of_dom. intros Hin.
  apply Hdeclared in Hin. revert Hin. unfold ContainerOverride_properties.
  rewrite elem_of_list_to_set. intros Hin.
  repeat (apply elem_of_cons in Hin as [Hin|Hin]; [discriminate Hin |]).
  apply elem_of_nil in Hin. exact Hin.
Qed.

(** X12. The renaming of any object, container override or not: the
    result never has a property [containerName]; it always has a property
    [name], which holds the object's own [name] if it has one (the spread
    comes after [name: containerName] and wins) and otherwise the value of
    [containerName], [undefined] when that is missing too; every other
    property is as in the object. *)
Theorem renameContainerName_properties (o : JsObject) :
  renameContainerName o !! "containerName" = None
  ∧ renameContainerName o !! "name"
    = Some (match o !! "name" with
            | Some own => own
            | None => default JUndefined (o !! "containerName")
            end)
  ∧ ∀ k, k ≠ "name" → k ≠ "containerName" → renameContainerName o !! k = o !! k.
Proof.
  unfold renameContainerName, js_literal_spread, js_rest, js_get.
  split; [| split].
  - apply lookup_union_None. split.
    + apply lookup_delete_eq.
    + apply lookup_singleton_ne. discriminate.
  - destruct (o !! "name") as [own|] eqn:Hown.
    + apply lookup_union_Some_l. rewrite lookup_delete_ne by discriminate.
      exact Hown.
    + rewrite lookup_union_r by (rewrite lookup_delete_ne by discriminate; exact Hown).
      apply lookup_singleton_eq.
  - intros k Hk1 Hk2.
    rewrite lookup_union_l by (apply lookup_singleton_ne; congruence).
    apply lookup_delete_ne. congruence.
Qed.

(** The renaming is injective on container overrides. *)
Lemma renameContainerName_eq_inv (o1 o2 : ContainerOverride) :
  is_ContainerOverride o1 →
  is_ContainerOverride o2 →
  renameContainerName o1 = renameContainerName o2 →
  o1 = o2.
Proof.
  intros H1 H2 Heq. apply map_eq. intros k.
  destruct (renameContainerName_lookup o1 H1) as (Hn1 & _ & Hr1).
  destruct (renameContainerName_lookup o2 H2) as (Hn2 & _ & Hr2).
  destruct (decide (k = "containerName")) as [->|Hcn].
  - rewrite <- Hn1, <- Hn2, Heq. reflexivity.
  - destruct (decide (k = "name")) as [->|Hname].
    + rewrite !ContainerOverride_no_name by assumption. reflexivity.
    + rewrite <- (Hr1 k Hname Hcn), <- (Hr2 k Hname Hcn), Heq. reflexivity.
Qed.

(** X13. On container overrides the renaming loses nothing: overrides
    that differ, in the container name or in any other property, are
    renamed to objects that differ. *)
Theorem renameContainerName_distinct (o1 o2 : ContainerOverride) :
  is_ContainerOverride o1 →
  is_ContainerOverride o2 →
  o1 ≠ o2 →
  renameContainerName o1 ≠ renameContainerName o2.
Proof.
  intros H1 H2 Hne Heq. apply Hne.
  apply renameContainerName_eq_inv; assumption.
Qed.

Lemma renameContainerName_distinct_witness :
  renameContainerName override_web ≠ renameContainerName override_worker.
Proof.
  apply (renameContainerName_distinct override_web override_worker).
  - apply (bool_decide_unpack _). vm_compute. exact I.
  - apply (bool_decide_unpack _). vm_compute. exact I.
  - intros Heq. apply (f_equal (λ o : JsObject, o !! "cpu")) in Heq.
    vm_compute in Heq. discriminate Heq.
Defined.

#[local] Set Warnings "-clear-no-such-hyp".

(** X14. The renamed object has the properties of the object without
    [containerName] and with [name]; a container override therefore keeps
    its number of properties. *)
Theorem renameContainerName_dom (o : JsObject) :
  dom (renameContainerName o) = {[ "name" ]} ∪ (dom o ∖ {[ "containerName" ]})
  ∧ (is_ContainerOverride o → size (renameContainerName o) = size o).
Proof.
  assert (Hdom : dom (renameContainerName o)
                 = {[ "name" ]} ∪ (dom o ∖ {[ "containerName" ]})).
  { unfold renameContainerName, js_literal_spread, js_rest.
    rewrite dom_union_L, dom_delete_L, dom_singleton_L. set_solver. }
  split; [exact Hdom |].
  intros Htyped. pose proof (ContainerOverride_no_name o Htyped) as Hfree.
  destruct Htyped as [Hcn _]. apply not_elem_of_dom in Hfree.
  rewrite <- !size_dom, Hdom.
  rewrite size_union by set_solver.
  rewrite size_singleton, size_difference by set_solver.
  rewrite size_singleton.
  assert (size (dom o) ≠ 0%nat).
  { intros Hz. apply size_empty_inv in Hz. set_solver. }
  lia.
Qed.

(** X15. Outside awsvpc mode neither the security-group properties nor
    the subnet selection reach the target: two constructed targets whose
    properties agree on the cluster, the task definition, the task count
    and the container overrides get the same configuration from [bind]. *)
Theorem not_awsvpc_bind_ignores_network_properties
    (singletonEventRole : ecs.TaskDefinition → list iam.PolicyStatement → iam.IRole)
    (props1 props2 : EcsTaskProps.t) (σ1 σ1' σ2 σ2' : Constructs)
    (this1 this2 : EcsTask.t) (rule : events.IRule) (id : option string) :
  EcsTaskProps.cluster props1 = EcsTaskProps.cluster props2 →
  EcsTaskProps.taskDefinition props1 = EcsTaskProps.taskDefinition props2 →
  EcsTaskProps.taskCount props1 = EcsTaskProps.taskCount props2 →
  EcsTaskProps.containerOverrides props1 = EcsTaskProps.containerOverrides props2 →
  ecs.networkMode (EcsTaskProps.taskDefinition props1) ≠ ecs.AWS_VPC →
  constructor props1 σ1 = (Ok this1, σ1') →
  constructor props2 σ2 = (Ok this2, σ2') →
  bind singletonEventRole this1 rule id = bind singletonEventRole this2 rule id.
Proof.
  intros Hcl Htd Hcount Hov Hmode Hok1 Hok2.
  assert (Hmode2 : ecs.networkMode (EcsTaskProps.taskDefinition props2) ≠ ecs.AWS_VPC)
    by (rewrite <- Htd; exact Hmode).
  pose proof (constructor_outcome props1 σ1) as Hout1. rewrite Hok1 in Hout1.
  pose proof (constructor_outcome props2 σ2) as Hout2. rewrite Hok2 in Hout2.
  assert (H1 : this1 = assigned props1 None None)
    by (inversion Hout1; subst; try contradiction; reflexivity).
  assert (H2 : this2 = assigned props2 None None)
    by (inversion Hout2; subst; try contradiction; reflexivity).
  subst this1 this2.
  unfold bind, ecsParameters, policyStatements, runTaskStatement, containerOverrides.
  simpl. rewrite (bool_decide_eq_false_2 _ Hmode), (bool_decide_eq_false_2 _ Hmode2).
  rewrite Hcl, Htd, Hcount, Hov. reflexivity.
Qed.

Lemma not_awsvpc_bind_ignores_network_properties_witness :
  bind sample_singletonEventRole (assigned (props_legacy ecs.BRIDGE) None None)
    sample_rule None
  = bind sample_singletonEventRole (assigned (props_list ecs.BRIDGE) None None)
      sample_rule None.
Proof.
  apply (not_awsvpc_bind_ignores_network_properties sample_singletonEventRole
           (props_legacy ecs.BRIDGE) (props_list ecs.BRIDGE)
           ∅ (warned ∅ (EcsTaskProps.taskDefinition (props_legacy ecs.BRIDGE)))
           tree_with_child
           (warned tree_with_child (EcsTaskProps.taskDefinition (props_list ecs.BRIDGE))));
    try reflexivity.
  simpl. discriminate.
Defined.

(** The two objects that are not container overrides, renamed: the own
    [name] survives and the container name is lost; without
    [containerName] the [name] is [undefined]. *)
Example renameContainerName_named :
  renameContainerName override_named
  = {[ "name" := JString "sidecar"; "cpu" := JNumber 128 ]}.
Proof. vm_compute. reflexivity. Qed.

Example renameContainerName_unnamed :
  renameContainerName override_unnamed
  = {[ "name" := JUndefined; "command" := JArray [JString "run"] ]}.
Proof. vm_compute. reflexivity. Qed.

(** On the sample tree, where the task definition already has a child
    "SecurityGroup", a supplied legacy group is used and the child is
    neither consulted nor replaced. *)
Example legacy_group_before_child :
  constructor (props_legacy ecs.AWS_VPC) tree_with_child
  = (Ok (assigned (props_legacy ecs.AWS_VPC)
           (Some (sample_group "sg-1")) (Some [sample_group "sg-1"])),
     tree_with_child).
Proof. reflexivity. Qed.
